(** * AQI analysis scripts: a shallow embedding and its properties

    The three scripts of the repository ([aqi_monitor.py],
    [aqi_map_visualization.py], [distance_analysis.py]) are embedded as
    Rocq functions.

    - Python [int] is [Z]; a nullable integer is [option Z].
    - A Python [dict] is an association list in insertion order, read
      with [dict_get] / [dict_getitem] and written with [dict_set].
    - A raised exception is the [Raise] branch of [result].
    - A [pandas] data frame is the list of its rows, a missing cell
      is [NaN].
    - A float that arrives in the JSON response is a binary64 number
      ([PrimFloat.float]).  The arithmetic on floats is exact: means and
      medians of integers are rationals ([Q]), distances are real
      numbers ([R]); rounding errors are not part of the model.
    - Console output is modelled where a property depends on it (the
      report of [run_monitoring]); files and plots are not. *)

From Stdlib Require Import Floats.
From Stdlib Require Import Bool List String Ascii ZArith QArith Qround Lia.
From Stdlib Require Import Permutation Sorted.
From Stdlib Require Import Reals Lra.
Import ListNotations.

Open Scope string_scope.
Open Scope Z_scope.
Open Scope list_scope.

(** ** Exceptions *)

Inductive exn : Type :=
| ValueError
| TypeError
| OverflowError
| KeyError
| ZeroDivisionError.

Inductive result (A : Type) : Type :=
| Ok (a : A)
| Raise (e : exn).

Arguments Ok {A} a.
Arguments Raise {A} e.

Definition bind {A B : Type} (m : result A) (k : A -> result B) : result B :=
  match m with
  | Ok a => k a
  | Raise e => Raise e
  end.

Notation "x <- m ;; k" := (bind m (fun x => k))
  (at level 61, m at next level, right associativity).

Definition raises {A : Type} (m : result A) : Prop :=
  exists e, m = Raise e.

(** ** Python dictionaries *)

Section Dict.
Context {V : Type}.

Definition dict : Type := list (string * V).

(** [d.get(k)] *)
Fixpoint dict_get (d : dict) (k : string) : option V :=
  match d with
  | [] => None
  | (k', v) :: d' => if String.eqb k' k then Some v else dict_get d' k
  end.

(** [d[k]] *)
Definition dict_getitem (d : dict) (k : string) : result V :=
  match dict_get d k with
  | Some v => Ok v
  | None => Raise KeyError
  end.

(** [d[k] = v]: an existing key keeps its position, a new key goes last. *)
Fixpoint dict_set (d : dict) (k : string) (v : V) : dict :=
  match d with
  | [] => [(k, v)]
  | (k', v') :: d' =>
      if String.eqb k' k then (k', v) :: d' else (k', v') :: dict_set d' k v
  end.

Definition dict_keys (d : dict) : list string := map fst d.
Definition dict_values (d : dict) : list V := map snd d.
End Dict.

Arguments dict V : clear implicits.

(** ** Lists: Python's stable sort and the numeric built-ins *)

Section StableSort.
Context {A : Type}.
(** [precedes a b]: [a] may stand before [b] in the sorted list. *)
Variable precedes : A -> A -> bool.

Fixpoint insert_sorted (x : A) (l : list A) : list A :=
  match l with
  | [] => [x]
  | y :: l' => if precedes x y then x :: y :: l' else y :: insert_sorted x l'
  end.

(** [list.sort] is stable: an element is put before the elements of the
    sorted tail that it may precede, so equal keys keep their order. *)
Fixpoint stable_sort (l : list A) : list A :=
  match l with
  | [] => []
  | x :: l' => insert_sorted x (stable_sort l')
  end.
End StableSort.

Definition sum_Z (l : list Z) : Z := fold_right Z.add 0 l.
Definition sum_nat (l : list nat) : nat := fold_right Nat.add 0%nat l.

(** [max(l)] and [min(l)]: [ValueError] on an empty sequence. *)
Definition py_max (l : list Z) : result Z :=
  match l with
  | [] => Raise ValueError
  | x :: l' => Ok (fold_left Z.max l' x)
  end.

Definition py_min (l : list Z) : result Z :=
  match l with
  | [] => Raise ValueError
  | x :: l' => Ok (fold_left Z.min l' x)
  end.

(** [a / b] on integers: true division, the quotient taken exactly.
    Python rounds the quotient to binary64 and raises [OverflowError]
    when it is beyond the binary64 range; neither is modelled, and the
    general statements on the mean and the percentage bound the AQI
    values so that neither shows. *)
Definition py_truediv (a b : Z) : result Q :=
  if b =? 0 then Raise ZeroDivisionError
  else Ok (Qdiv (inject_Z a) (inject_Z b)).

(** [x < y] between numbers, either of which may be an integer or a
    float: the comparison of the two values. *)
Definition Qlt_bool (x y : Q) : bool := negb (Qle_bool y x).

(** Round half to even, on an exact rational. *)
Definition Qrint (q : Q) : Z :=
  let f := Qfloor q in
  match Qcompare (q - inject_Z f) (1 # 2) with
  | Lt => f
  | Gt => f + 1
  | Eq => if Z.even f then f else f + 1
  end.

(** [round(q, 1)] *)
Definition round1 (q : Q) : Q := Qred (inject_Z (Qrint (q * inject_Z 10)) / inject_Z 10).

(** Truncation toward zero, the integer part taken by [int(x)]. *)
Definition Qtrunc (q : Q) : Z := Z.quot (Qnum q) (Zpos (Qden q)).

(** ** Data frames read back from the CSV exports

    A frame is the list of its rows.  A cell is a value or [NaN], which
    is what an empty CSV field reads back as.  The [aqi] column holds
    integers; coordinates are floats, taken as real numbers, so that an
    infinite coordinate cell has no counterpart here. *)

Module DataFrame.

Inductive cell (A : Type) : Type :=
| NaN
| Val (a : A).

Arguments NaN {A}.
Arguments Val {A} a.

Record row : Type := mk_row {
  site_name : string;
  county : string;
  aqi : cell Z;
  latitude : cell R;
  longitude : cell R
}.

Definition t : Type := list row.

Definition isna {A : Type} (c : cell A) : bool :=
  match c with NaN => true | Val _ => false end.

(** [df['aqi'].isna()] *)
Definition aqi_isna (r : row) : bool := isna (aqi r).

(** [df['aqi'].notna()] *)
Definition aqi_notna (r : row) : bool := negb (isna (aqi r)).

(** [(df['aqi'] >= min_val) & (df['aqi'] <= max_val)]; a comparison
    with [NaN] is false. *)
Definition aqi_between (min_val max_val : Z) (r : row) : bool :=
  match aqi r with
  | Val v => (min_val <=? v) && (v <=? max_val)
  | NaN => false
  end.

(** [df[df['aqi'].notna()]['aqi']] *)
Definition valid_aqi (df : t) : list Z :=
  flat_map (fun r => match aqi r with Val v => [v] | NaN => [] end)
           (filter aqi_notna df).

(** [Series.max()], [Series.min()]: [NaN] on an empty series. *)
Definition series_max (s : list Z) : cell Z :=
  match s with [] => NaN | x :: s' => Val (fold_left Z.max s' x) end.

Definition series_min (s : list Z) : cell Z :=
  match s with [] => NaN | x :: s' => Val (fold_left Z.min s' x) end.

(** [Series.mean()], taken exactly: the binary64 rounding of pandas is
    left out. *)
Definition series_mean (s : list Z) : cell Q :=
  match s with
  | [] => NaN
  | _ => Val (Qred (inject_Z (sum_Z s) / inject_Z (Z.of_nat (List.length s))))
  end.

(** [Series.median()]: the middle value of the sorted series, or the
    mean of the two middle values, taken exactly.  It is the binary64
    median of pandas when the values are integers of magnitude at most
    2^52. *)
Definition series_median (s : list Z) : cell Q :=
  match s with
  | [] => NaN
  | _ =>
      let sorted := stable_sort Z.leb s in
      let n := List.length sorted in
      let hi := nth (n / 2)%nat sorted 0 in
      if Nat.even n
      then let lo := nth (n / 2 - 1)%nat sorted 0 in
           Val (Qred (inject_Z (lo + hi) / inject_Z 2))
      else Val (inject_Z hi)
  end.

(** [int(x)]: [ValueError] on [NaN], truncation otherwise. *)
Definition int_of_cell (x : cell Z) : result Z :=
  match x with Val v => Ok v | NaN => Raise ValueError end.

Definition int_of_float_cell (x : cell Q) : result Z :=
  match x with Val q => Ok (Qtrunc q) | NaN => Raise ValueError end.

(** [round(x, 1)]: [NaN] stays [NaN]. *)
Definition round1_cell (x : cell Q) : cell Q :=
  match x with Val q => Val (round1 q) | NaN => NaN end.

End DataFrame.

(** ** [aqi_map_visualization.py]: the classifier *)

Module AQIMapVisualizer.

Definition aqi_colors : dict string :=
  [ ("good", "#00E400");
    ("moderate", "#FFFF00");
    ("unhealthy_sensitive", "#FF7E00");
    ("unhealthy", "#FF0000");
    ("very_unhealthy", "#8F3F97");
    ("hazardous", "#7E0023") ].

Definition aqi_ranges : dict (Z * Z) :=
  [ ("good", (0, 50));
    ("moderate", (51, 100));
    ("unhealthy_sensitive", (101, 150));
    ("unhealthy", (151, 200));
    ("very_unhealthy", (201, 300));
    ("hazardous", (301, 500)) ].

Definition aqi_labels : dict string :=
  [ ("good", "良好 (0-50)");
    ("moderate", "普通 (51-100)");
    ("unhealthy_sensitive", "對敏感族群不健康 (101-150)");
    ("unhealthy", "對所有族群不健康 (151-200)");
    ("very_unhealthy", "非常不健康 (201-300)");
    ("hazardous", "危害 (301-500)") ].

(** [min_val <= aqi_value <= max_val] *)
Definition in_range (rng : Z * Z) (aqi_value : Z) : bool :=
  (fst rng <=? aqi_value) && (aqi_value <=? snd rng).

(** The [for category, (min_val, max_val) in ranges.items()] loop shared
    by [get_aqi_color] and [get_aqi_category]: the first matching range
    returns [table[category]], falling off the end returns [fallback]. *)
Fixpoint scan (ranges : dict (Z * Z)) (table : dict string)
    (fallback : string) (aqi_value : Z) : result string :=
  match ranges with
  | [] => Ok fallback
  | (category, rng) :: rest =>
      if in_range rng aqi_value then dict_getitem table category
      else scan rest table fallback aqi_value
  end.

Definition get_aqi_color (aqi_value : option Z) : result string :=
  match aqi_value with
  | None => Ok "#808080"
  | Some v => scan aqi_ranges aqi_colors "#808080" v
  end.

Definition get_aqi_category (aqi_value : option Z) : result string :=
  match aqi_value with
  | None => Ok "無資料"
  | Some v => scan aqi_ranges aqi_labels "超出範圍" v
  end.

(** *** [create_statistics_summary] *)

Record statistics_dict : Type := mk_statistics {
  max_aqi : option Z;
  min_aqi : option Z;
  avg_aqi : option (DataFrame.cell Q);
  median_aqi : option Z
}.

Record summary : Type := mk_summary {
  total_stations : nat;
  stations_with_data : nat;
  stations_missing_data : nat;
  category_distribution : dict nat;
  statistics : statistics_dict;
  timestamp : string
}.

(** [len(df[(df['aqi'] >= min_val) & (df['aqi'] <= max_val)])] *)
Definition count_between (df : DataFrame.t) (rng : Z * Z) : nat :=
  List.length (filter (DataFrame.aqi_between (fst rng) (snd rng)) df).

(** The loop filling [category_counts], one key per range. *)
Fixpoint count_categories (ranges : dict (Z * Z)) (df : DataFrame.t)
    (category_counts : dict nat) : dict nat :=
  match ranges with
  | [] => category_counts
  | (category, rng) :: rest =>
      count_categories rest df
        (dict_set category_counts category (count_between df rng))
  end.

Definition missing_count (df : DataFrame.t) : nat :=
  List.length (filter DataFrame.aqi_isna df).

Definition category_counts_of (df : DataFrame.t) : dict nat :=
  let category_counts := count_categories aqi_ranges df [] in
  if (0 <? missing_count df)%nat
  then dict_set category_counts "missing" (missing_count df)
  else category_counts.

(** [f(x) if len(valid_aqi) > 0 else None] *)
Definition if_nonempty {A B : Type} (valid : list A) (x : result B)
    : result (option B) :=
  if (0 <? List.length valid)%nat then (v <- x ;; Ok (Some v)) else Ok None.

(** [now] is the string [datetime.now().strftime(...)] gives. *)
Definition create_statistics_summary (now : string) (df : option DataFrame.t)
    : result (option summary) :=
  match df with
  | None => Ok None
  | Some df =>
      let category_counts := category_counts_of df in
      let valid_aqi := DataFrame.valid_aqi df in
      mx <- if_nonempty valid_aqi
              (DataFrame.int_of_cell (DataFrame.series_max valid_aqi)) ;;
      mn <- if_nonempty valid_aqi
              (DataFrame.int_of_cell (DataFrame.series_min valid_aqi)) ;;
      avg <- if_nonempty valid_aqi
              (Ok (DataFrame.round1_cell (DataFrame.series_mean valid_aqi))) ;;
      med <- if_nonempty valid_aqi
              (DataFrame.int_of_float_cell (DataFrame.series_median valid_aqi)) ;;
      Ok (Some {|
        total_stations := List.length df;
        stations_with_data := List.length valid_aqi;
        stations_missing_data := missing_count df;
        category_distribution := category_counts;
        statistics := {| max_aqi := mx; min_aqi := mn;
                         avg_aqi := avg;
                         median_aqi := med |};
        timestamp := now |})
  end.

End AQIMapVisualizer.

(** ** [aqi_map_visualization.py]: the markers of the map

    [create_aqi_map] and [create_popup_content] classify
    [station['aqi']], a cell of the frame.  A cell is never [None], so
    the [is None] test of the classifier does not fire on it, and every
    comparison with [NaN] is false. *)

Module MapMarkers.
Import DataFrame.

(** [min_val <= aqi_value <= max_val] on a cell *)
Definition cell_in_range (rng : Z * Z) (aqi_value : cell Z) : bool :=
  match aqi_value with
  | Val v => AQIMapVisualizer.in_range rng v
  | NaN => false
  end.

(** The classifier's loop on a cell. *)
Fixpoint scan_cell (ranges : dict (Z * Z)) (table : dict string)
    (fallback : string) (aqi_value : cell Z) : result string :=
  match ranges with
  | [] => Ok fallback
  | (category, rng) :: rest =>
      if cell_in_range rng aqi_value then dict_getitem table category
      else scan_cell rest table fallback aqi_value
  end.

(** [self.get_aqi_color(station['aqi'])] *)
Definition marker_color (station : row) : result string :=
  scan_cell AQIMapVisualizer.aqi_ranges AQIMapVisualizer.aqi_colors
            "#808080" (aqi station).

(** [self.get_aqi_category(station['aqi'])] *)
Definition marker_category (station : row) : result string :=
  scan_cell AQIMapVisualizer.aqi_ranges AQIMapVisualizer.aqi_labels
            "超出範圍" (aqi station).

End MapMarkers.

(** ** [aqi_monitor.py] *)

Module AQIMonitor.

(** The values [response.json()] can build.  A Python [float] is an
    IEEE binary64 number. *)
#[warnings="-register-all"]
Inductive pyval : Type :=
| PNone
| PBool (b : bool)
| PInt (z : Z)
| PFloat (f : float)
| PStr (s : string)
| PList (l : list pyval)
| PDict (d : list (string * pyval)).

(** Truth value of an object, as [if x] and [x and y] test it. *)
Definition truthy (v : pyval) : bool :=
  match v with
  | PNone => false
  | PBool b => b
  | PInt z => negb (z =? 0)
  | PFloat f => negb (PrimFloat.eqb f PrimFloat.zero)
  | PStr s => negb (String.eqb s "")
  | PList l => match l with [] => false | _ => true end
  | PDict d => match d with [] => false | _ => true end
  end.

(** [int(f)] on a float: truncation toward zero. *)
Definition int_of_float (f : float) : result Z :=
  match Prim2SF f with
  | S754_nan => Raise ValueError
  | S754_infinity _ => Raise OverflowError
  | S754_zero _ => Ok 0
  | S754_finite s m e =>
      Ok (cond_Zopp s
            (match e with
             | Zneg k => Z.shiftr (Zpos m) (Zpos k)
             | _ => Z.shiftl (Zpos m) e
             end))
  end.

(** [float(z)] on an integer: the nearest binary64 number, ties to even. *)
Definition float_of_int (z : Z) : result float :=
  match binary_normalize prec emax z 0 false with
  | S754_infinity _ => Raise OverflowError
  | sf => Ok (SF2Prim sf)
  end.

Definition raw_record : Type := dict pyval.

(** [record.get(k)] and [record.get(k, default)] *)
Definition record_get (record : raw_record) (k : string) : pyval :=
  match dict_get record k with Some v => v | None => PNone end.

Definition record_get_default (record : raw_record) (k : string)
    (default : pyval) : pyval :=
  match dict_get record k with Some v => v | None => default end.

Record processed_record : Type := mk_processed {
  site_id : pyval;
  site_name : pyval;
  county : pyval;
  aqi : option Z;
  pollutant : pyval;
  status : pyval;
  pm25 : option float;
  pm10 : option float;
  so2 : option float;
  no2 : option float;
  co : option float;
  o3 : option float;
  wind_speed : option float;
  wind_direction : option float;
  data_time : pyval;
  latitude : option float;
  longitude : option float
}.

Section Normalizer.
(** The string parsers behind [int(s)] and [float(s)]; [None] stands
    for the [ValueError] they raise on a string they do not accept. *)
Variable int_of_str : string -> option Z.
Variable float_of_str : string -> option float.

Definition py_int (v : pyval) : result Z :=
  match v with
  | PNone => Raise TypeError
  | PBool b => Ok (if b then 1 else 0)
  | PInt z => Ok z
  | PFloat f => int_of_float f
  | PStr s => match int_of_str s with Some z => Ok z | None => Raise ValueError end
  | PList _ => Raise TypeError
  | PDict _ => Raise TypeError
  end.

Definition py_float (v : pyval) : result float :=
  match v with
  | PNone => Raise TypeError
  | PBool b => Ok (if b then PrimFloat.one else PrimFloat.zero)
  | PInt z => float_of_int z
  | PFloat f => Ok f
  | PStr s => match float_of_str s with Some f => Ok f | None => Raise ValueError end
  | PList _ => Raise TypeError
  | PDict _ => Raise TypeError
  end.

(** [int(record.get(k, 0)) if record.get(k) else None] *)
Definition int_field (record : raw_record) (k : string) : result (option Z) :=
  if truthy (record_get record k)
  then z <- py_int (record_get_default record k (PInt 0)) ;; Ok (Some z)
  else Ok None.

(** [float(record.get(k, 0)) if record.get(k) else None] *)
Definition float_field (record : raw_record) (k : string)
    : result (option float) :=
  if truthy (record_get record k)
  then f <- py_float (record_get_default record k (PInt 0)) ;; Ok (Some f)
  else Ok None.

(** The dictionary display in the [try] body; its entries are
    evaluated in order, so the first faulting field decides the
    exception. *)
Definition process_record (record : raw_record) : result processed_record :=
  aqi_ <- int_field record "aqi" ;;
  pm25_ <- float_field record "pm2.5" ;;
  pm10_ <- float_field record "pm10" ;;
  so2_ <- float_field record "so2" ;;
  no2_ <- float_field record "no2" ;;
  co_ <- float_field record "co" ;;
  o3_ <- float_field record "o3" ;;
  wind_speed_ <- float_field record "windspeed" ;;
  wind_direction_ <- float_field record "winddirec" ;;
  latitude_ <- float_field record "latitude" ;;
  longitude_ <- float_field record "longitude" ;;
  Ok {| site_id := record_get record "siteid";
        site_name := record_get record "sitename";
        county := record_get record "county";
        aqi := aqi_;
        pollutant := record_get record "pollutant";
        status := record_get record "status";
        pm25 := pm25_; pm10 := pm10_; so2 := so2_; no2 := no2_;
        co := co_; o3 := o3_;
        wind_speed := wind_speed_; wind_direction := wind_direction_;
        data_time := record_get record "datacreationdate";
        latitude := latitude_; longitude := longitude_ |}.

(** The [for record in raw_data] loop: [except (ValueError, TypeError)]
    skips the record, any other exception leaves the function. *)
Fixpoint process_loop (raw_data : list raw_record)
    (processed_data : list processed_record)
    : result (list processed_record) :=
  match raw_data with
  | [] => Ok processed_data
  | record :: rest =>
      match process_record record with
      | Ok processed => process_loop rest (processed_data ++ [processed])
      | Raise ValueError => process_loop rest processed_data
      | Raise TypeError => process_loop rest processed_data
      | Raise e => Raise e
      end
  end.

Definition process_aqi_data (raw_data : list raw_record)
    : result (option (list processed_record)) :=
  match raw_data with
  | [] => Ok None
  | _ => processed_data <- process_loop raw_data [] ;; Ok (Some processed_data)
  end.
End Normalizer.

(** *** [identify_high_aqi_stations] *)

(** [station['aqi'] and station['aqi'] > threshold]; the threshold is
    any number, an integer or a float. *)
Definition is_high (threshold : Q) (station : processed_record) : bool :=
  match aqi station with
  | None => false
  | Some v => negb (v =? 0) && Qlt_bool threshold (inject_Z v)
  end.

(** The sort key [x['aqi']]; every station that reaches the sort passed
    [is_high], so its [aqi] is an integer. *)
Definition sort_key (station : processed_record) : Z :=
  match aqi station with Some v => v | None => 0 end.

(** [sort(key=..., reverse=True)]: descending, equal keys in input order. *)
Definition key_desc (x y : processed_record) : bool :=
  sort_key y <=? sort_key x.

Definition identify_high_aqi_stations (processed_data : list processed_record)
    (threshold : Q) : list processed_record :=
  match processed_data with
  | [] => []
  | _ => stable_sort key_desc (filter (is_high threshold) processed_data)
  end.

Definition default_threshold : Q := inject_Z 50.

(** *** [generate_summary] *)

Record summary : Type := mk_summary {
  total_stations : nat;
  stations_with_aqi_data : nat;
  high_aqi_stations : nat;
  percentage_high_aqi : Q;
  max_aqi : option Z;
  min_aqi : option Z;
  avg_aqi : option Q;
  data_timestamp : string
}.

(** [[s['aqi'] for s in processed_data if s['aqi'] is not None]] *)
Definition aqi_values_of (processed_data : list processed_record) : list Z :=
  flat_map (fun s => match aqi s with Some v => [v] | None => [] end)
           processed_data.

(** [f(aqi_values) if aqi_values else None] *)
Definition if_values {B : Type} (aqi_values : list Z) (x : result B)
    : result (option B) :=
  match aqi_values with
  | [] => Ok None
  | _ => v <- x ;; Ok (Some v)
  end.

Definition generate_summary (now : string)
    (processed_data high_aqi_stations_ : list processed_record)
    : result (option summary) :=
  match processed_data with
  | [] => Ok None
  | _ =>
      let total_stations_ := List.length processed_data in
      let high_aqi_count := List.length high_aqi_stations_ in
      let aqi_values := aqi_values_of processed_data in
      pct <- (if (0 <? total_stations_)%nat
              then q <- py_truediv (Z.of_nat high_aqi_count)
                                   (Z.of_nat total_stations_) ;;
                   Ok (Qred (q * inject_Z 100))
              else Ok (inject_Z 0)) ;;
      mx <- if_values aqi_values (py_max aqi_values) ;;
      mn <- if_values aqi_values (py_min aqi_values) ;;
      avg <- if_values aqi_values
               (q <- py_truediv (sum_Z aqi_values)
                                (Z.of_nat (List.length aqi_values)) ;;
                Ok (Qred q)) ;;
      Ok (Some {| total_stations := total_stations_;
                  stations_with_aqi_data := List.length aqi_values;
                  high_aqi_stations := high_aqi_count;
                  percentage_high_aqi := pct;
                  max_aqi := mx; min_aqi := mn; avg_aqi := avg;
                  data_timestamp := now |})
  end.

(** *** [run_monitoring]: the console report *)

Section Console.
Variable int_of_str : string -> option Z.
Variable float_of_str : string -> option float.
(** [str(x)] as an f-string renders a field, and [format(x, '.Nf')]
    for a float. *)
Variable str_int : Z -> string.
Variable str_val : pyval -> string.
Variable format_fixed : nat -> Q -> string.

Definition nl : string := String (ascii_of_nat 10) "".

(** [f"{x}"] on a nullable integer *)
Definition str_opt_int (x : option Z) : string :=
  match x with Some z => str_int z | None => "None" end.

(** [f"{x:.Nf}"]: [None] does not accept a format specification. *)
Definition format_f (digits : nat) (x : option Q) : result string :=
  match x with
  | Some q => Ok (format_fixed digits q)
  | None => Raise TypeError
  end.

Definition station_line (station : processed_record) : string :=
  (str_val (site_name station) ++ " (" ++ str_val (county station)
   ++ "): AQI = " ++ str_opt_int (aqi station) ++ " - "
   ++ str_val (status station))%string.

(** Lines 211-221: the summary block, then one line per high station. *)
Definition display_results (s : summary)
    (high_aqi_stations_ : list processed_record) : result (list string) :=
  pct <- format_f 1 (Some (percentage_high_aqi s)) ;;
  avg <- format_f 1 (avg_aqi s) ;;
  Ok ([ (nl ++ "=== Summary ===")%string;
        ("Total stations: " ++ str_int (Z.of_nat (total_stations s)))%string;
        ("Stations with AQI > 50: "
           ++ str_int (Z.of_nat (high_aqi_stations s)))%string;
        ("Percentage: " ++ pct ++ "%")%string;
        ("Max AQI: " ++ str_opt_int (max_aqi s))%string;
        ("Min AQI: " ++ str_opt_int (min_aqi s))%string;
        ("Average AQI: " ++ avg)%string;
        (nl ++ "=== Stations with AQI > 50 ("
           ++ str_int (Z.of_nat (List.length high_aqi_stations_))
           ++ " stations) ===")%string ]
      ++ map station_line high_aqi_stations_).

(** [run_monitoring] from the fetched data to the end of the report
    (saving the files and drawing the chart follow).  The value is the
    list of the lines the report prints. *)
Definition run_monitoring (now : string) (raw_data : option (list raw_record))
    : result (list string) :=
  match raw_data with
  | None => Ok ["Failed to fetch data. Exiting."]
  | Some [] => Ok ["Failed to fetch data. Exiting."]
  | Some raw_data =>
      processed_data <- process_aqi_data int_of_str float_of_str raw_data ;;
      match processed_data with
      | None => Ok ["Failed to process data. Exiting."]
      | Some [] => Ok ["Failed to process data. Exiting."]
      | Some processed_data =>
          let high := identify_high_aqi_stations processed_data
                        default_threshold in
          summary_ <- generate_summary now processed_data high ;;
          match summary_ with
          | None => Raise TypeError
          | Some s => display_results s high
          end
      end
  end.
End Console.

End AQIMonitor.

(** ** [distance_analysis.py]

    Distances are computed on real numbers: the rounding of binary64
    arithmetic and the [ValueError] of [math.sin] and [math.cos] on an
    infinite argument are left out, the domain errors of [math.sqrt]
    and [math.asin] are kept. *)

Module DistanceAnalyzer.
Import DataFrame.
Local Open Scope R_scope.

Definition taipei_latitude : R := 25.0478.
Definition taipei_longitude : R := 121.5170.

(** [math.radians], [math.sqrt], [math.asin] *)
Definition radians (x : R) : R := x * (PI / 180).

Definition py_sqrt (x : R) : result R :=
  if Rlt_dec x 0 then Raise ValueError else Ok (sqrt x).

Definition py_asin (x : R) : result R :=
  if Rlt_dec x (-1) then Raise ValueError
  else if Rlt_dec 1 x then Raise ValueError
  else Ok (asin x).

Definition haversine_distance (lat1 lon1 lat2 lon2 : R) : result R :=
  let lat1 := radians lat1 in
  let lon1 := radians lon1 in
  let lat2 := radians lat2 in
  let lon2 := radians lon2 in
  let dlat := lat2 - lat1 in
  let dlon := lon2 - lon1 in
  let a := sin (dlat / 2) ^ 2 + cos lat1 * cos lat2 * sin (dlon / 2) ^ 2 in
  root <- py_sqrt a ;;
  angle <- py_asin root ;;
  let c := 2 * angle in
  let r := 6371 in
  Ok (c * r).

(** Round half to even, and [Series.round(2)]. *)
Definition Rrint (x : R) : Z :=
  let f := Int_part x in
  if Rlt_dec (x - IZR f) (1 / 2) then f
  else if Rlt_dec (1 / 2) (x - IZR f) then (f + 1)%Z
  else if Z.even f then f else (f + 1)%Z.

Definition round2 (x : R) : R := IZR (Rrint (x * 100)) / 100.

(** A row of the frame [calculate_distances] returns. *)
Record row_with_distance : Type := mk_row_with_distance {
  station : row;
  distance_to_taipei : R
}.

(** [df.dropna(subset=['latitude', 'longitude'])], each kept row with
    the two coordinates it holds. *)
Definition dropna_coordinates (df : DataFrame.t) : list (row * R * R) :=
  flat_map (fun r => match latitude r, longitude r with
                     | Val lat, Val lon => [(r, lat, lon)]
                     | _, _ => []
                     end) df.

(** The [iterrows] loop, then the rounded column. *)
Fixpoint distances_of (valid_stations : list (row * R * R))
    : result (list row_with_distance) :=
  match valid_stations with
  | [] => Ok []
  | (r, lat, lon) :: rest =>
      distance <- haversine_distance lat lon taipei_latitude taipei_longitude ;;
      others <- distances_of rest ;;
      Ok ({| station := r; distance_to_taipei := round2 distance |} :: others)
  end.

Definition calculate_distances (df : option DataFrame.t)
    : result (option (list row_with_distance)) :=
  match df with
  | None => Ok None
  | Some df =>
      rows <- distances_of (dropna_coordinates df) ;;
      Ok (Some rows)
  end.

(** The reductions of a float series; all but [idxmin] and [idxmax]
    answer [NaN] on an empty series. *)
Definition Rleb (x y : R) : bool := if Rle_dec x y then true else false.
Definition Rltb (x y : R) : bool := if Rlt_dec x y then true else false.

Definition Rsum (s : list R) : R := fold_right Rplus 0 s.

Definition series_mean (s : list R) : cell R :=
  match s with
  | [] => NaN
  | _ => Val (Rsum s / INR (List.length s))
  end.

Definition series_median (s : list R) : cell R :=
  match s with
  | [] => NaN
  | _ =>
      let sorted := stable_sort Rleb s in
      let n := List.length sorted in
      let hi := nth (n / 2)%nat sorted 0 in
      if Nat.even n
      then Val ((nth (n / 2 - 1)%nat sorted 0 + hi) / 2)
      else Val hi
  end.

Definition series_min (s : list R) : cell R :=
  match s with [] => NaN | x :: s' => Val (fold_left Rmin s' x) end.

Definition series_max (s : list R) : cell R :=
  match s with [] => NaN | x :: s' => Val (fold_left Rmax s' x) end.

(** Sample standard deviation; [NaN] below two values. *)
Definition series_std (s : list R) : cell R :=
  match s with
  | [] => NaN
  | [_] => NaN
  | _ =>
      let m := Rsum s / INR (List.length s) in
      Val (sqrt (Rsum (map (fun x => (x - m) ^ 2) s)
                 / INR (List.length s - 1)))
  end.

(** Position of the first value that [better] than all before it. *)
Fixpoint arg_best (better : R -> R -> bool) (s : list R)
    (best_i : nat) (best : R) (i : nat) : nat :=
  match s with
  | [] => best_i
  | x :: s' =>
      if better x best then arg_best better s' i x (S i)
      else arg_best better s' best_i best (S i)
  end.

(** [Series.idxmin()], [Series.idxmax()]: [ValueError] on an empty
    series. *)
Definition idxmin (s : list R) : result nat :=
  match s with
  | [] => Raise ValueError
  | x :: s' => Ok (arg_best Rltb s' 0%nat x 1%nat)
  end.

Definition idxmax (s : list R) : result nat :=
  match s with
  | [] => Raise ValueError
  | x :: s' => Ok (arg_best (fun a b => Rltb b a) s' 0%nat x 1%nat)
  end.

(** [df.loc[label]] *)
Definition loc (df : list row_with_distance) (label : nat)
    : result row_with_distance :=
  match nth_error df label with
  | Some r => Ok r
  | None => Raise KeyError
  end.

Record analysis : Type := mk_analysis {
  total_stations : nat;
  avg_distance : cell R;
  median_distance : cell R;
  min_distance : cell R;
  max_distance : cell R;
  std_distance : cell R;
  nearest_station : row_with_distance;
  farthest_station : row_with_distance
}.

(** The five reductions come first in the source and raise nothing, so
    the first exception is that of [idxmin]. *)
Definition analyze_distance_distribution
    (df_with_distance : option (list row_with_distance))
    : result (option analysis) :=
  match df_with_distance with
  | None => Ok None
  | Some df =>
      let distances := map distance_to_taipei df in
      nearest_label <- idxmin distances ;;
      nearest <- loc df nearest_label ;;
      farthest_label <- idxmax distances ;;
      farthest <- loc df farthest_label ;;
      Ok (Some {| total_stations := List.length df;
                  avg_distance := series_mean distances;
                  median_distance := series_median distances;
                  min_distance := series_min distances;
                  max_distance := series_max distances;
                  std_distance := series_std distances;
                  nearest_station := nearest;
                  farthest_station := farthest |})
  end.

(** [run_analysis] from the loaded frame to the analysis. *)
Definition run_analysis (df : option DataFrame.t) : result (option analysis) :=
  match df with
  | None => Ok None
  | Some _ =>
      df_with_distance <- calculate_distances df ;;
      match df_with_distance with
      | None => Ok None
      | Some _ => analyze_distance_distribution df_with_distance
      end
  end.


End DistanceAnalyzer.

(** ** The entry points: which CSV export a script reads

    Both [aqi_map_visualization.py] and [distance_analysis.py] list the
    output directory, keep the names with their prefix that end in
    [.csv], and take [sorted(csv_files)[-1]].  Strings are compared as
    Python compares them, character by character; on the UTF-8 bytes of
    a [string] that is the byte order. *)

Module LatestFile.

(** [f.endswith(suffix)] *)
Definition endswith (f suffix : string) : bool :=
  (String.length suffix <=? String.length f)%nat
  && String.eqb (substring (String.length f - String.length suffix)
                           (String.length suffix) f) suffix.

(** [f.startswith(prefix) and f.endswith('.csv')] *)
Definition is_export (prefix f : string) : bool :=
  String.prefix prefix f && endswith f ".csv".

(** The name the script goes on with; [None] when it prints that no
    file was found. *)
Definition latest_file (prefix : string) (listing : list string)
    : option string :=
  let csv_files := filter (is_export prefix) listing in
  match csv_files with
  | [] => None
  | _ => Some (last (stable_sort String.leb csv_files) "")
  end.

Definition all_aqi_prefix : string := "all_aqi_data_".
Definition high_aqi_prefix : string := "high_aqi_stations_".

End LatestFile.

(** ** Vocabulary of the statements *)

Module Spec.
Import DataFrame.

(** The keys of the six bands, in table order. *)
Definition band_keys : list string :=
  [ "good"; "moderate"; "unhealthy_sensitive"; "unhealthy";
    "very_unhealthy"; "hazardous" ].

(** A reading whose AQI is a number outside every band. *)
Definition aqi_out_of_range (r : row) : bool :=
  match aqi r with
  | Val v => (v <? 0) || (500 <? v)
  | NaN => false
  end.

(** The buckets of [category_distribution] a reading is counted in. *)
Definition buckets_of (r : row) : list string :=
  map fst (filter (fun kr => aqi_between (fst (snd kr)) (snd (snd kr)) r)
                  AQIMapVisualizer.aqi_ranges)
  ++ (if aqi_isna r then ["missing"] else []).

Definition counted_in (k : string) (r : row) : bool :=
  existsb (String.eqb k) (buckets_of r).

(** The band a value in [0,500] belongs to. *)
Definition band_of (v : Z) : string :=
  if v <=? 50 then "good"
  else if v <=? 100 then "moderate"
  else if v <=? 150 then "unhealthy_sensitive"
  else if v <=? 200 then "unhealthy"
  else if v <=? 300 then "very_unhealthy"
  else "hazardous".

(** A processed record that only carries an AQI value. *)
Definition processed_with_aqi (a : option Z) : AQIMonitor.processed_record :=
  let absent := AQIMonitor.PNone in
  AQIMonitor.mk_processed absent absent absent a absent absent
    None None None None None None None None absent None None.

(** What the threshold filter is asked for: a non-null AQI above the
    threshold. *)
Definition above_threshold (threshold : Q)
    (station : AQIMonitor.processed_record) : bool :=
  match AQIMonitor.aqi station with
  | Some v => Qlt_bool threshold (inject_Z v)
  | None => false
  end.

(** The exceptions the normalizer's [except] clause catches. *)
Definition caught (e : exn) : bool :=
  match e with
  | ValueError => true
  | TypeError => true
  | _ => false
  end.

(** The float entries of a processed record, by raw key, in the order
    they are evaluated. *)
Definition float_keys_before_latitude : list string :=
  [ "pm2.5"; "pm10"; "so2"; "no2"; "co"; "o3"; "windspeed"; "winddirec" ].

Definition float_keys : list string :=
  float_keys_before_latitude ++ [ "latitude"; "longitude" ].

Section NormalizerVocabulary.
Variable int_of_str : string -> option Z.
Variable float_of_str : string -> option float.

(** The records of a batch that coerce, processed, in batch order. *)
Definition kept_records (raw_data : list AQIMonitor.raw_record)
    : list AQIMonitor.processed_record :=
  flat_map (fun record =>
              match AQIMonitor.process_record int_of_str float_of_str record with
              | Ok processed => [processed]
              | Raise _ => []
              end) raw_data.

(** A record that coerces, or whose fault the [except] clause catches. *)
Definition benign (record : AQIMonitor.raw_record) : Prop :=
  forall e,
    AQIMonitor.process_record int_of_str float_of_str record = Raise e ->
    caught e = true.

Definition coerces (record : AQIMonitor.raw_record) (k : string) : Prop :=
  exists v, AQIMonitor.float_field float_of_str record k = Ok v.
End NormalizerVocabulary.

(** A parser of plain decimal numerals, one instance of [int(s)], and
    the float parser it gives. *)
Fixpoint digits_value (s : string) (acc : Z) : option Z :=
  match s with
  | EmptyString => Some acc
  | String c s' =>
      let n := Z.of_nat (nat_of_ascii c) in
      if (48 <=? n) && (n <=? 57) then digits_value s' (10 * acc + (n - 48))
      else None
  end.

Definition decimal_int (s : string) : option Z :=
  match s with
  | EmptyString => None
  | _ => digits_value s 0
  end.

Definition decimal_float (s : string) : option float :=
  match decimal_int s with
  | Some z =>
      match AQIMonitor.float_of_int z with
      | Ok f => Some f
      | Raise _ => None
      end
  | None => None
  end.

(** The quantity under the square root in [haversine_distance]. *)
Definition haversine_a (lat1 lon1 lat2 lon2 : R) : R :=
  (sin ((DistanceAnalyzer.radians lat2 - DistanceAnalyzer.radians lat1) / 2) ^ 2
   + cos (DistanceAnalyzer.radians lat1) * cos (DistanceAnalyzer.radians lat2)
     * sin ((DistanceAnalyzer.radians lon2 - DistanceAnalyzer.radians lon1) / 2) ^ 2)%R.

(** A raw record as the API sends it: every value a string or null. *)
Definition string_typed (record : AQIMonitor.raw_record) : Prop :=
  forall k v, dict_get record k = Some v ->
              v = AQIMonitor.PNone \/ exists s, v = AQIMonitor.PStr s.

(** A number that is zero: the integer 0, a float zero of either sign,
    [False]. *)
Definition numeric_zero (v : AQIMonitor.pyval) : Prop :=
  v = AQIMonitor.PInt 0 \/ v = AQIMonitor.PFloat PrimFloat.zero
  \/ v = AQIMonitor.PFloat PrimFloat.neg_zero \/ v = AQIMonitor.PBool false.

(** A frame row that only carries an AQI cell. *)
Definition reading (a : cell Z) : row :=
  {| site_name := ""; county := ""; aqi := a;
     latitude := NaN; longitude := NaN |}.

End Spec.

(** * Properties *)

(** ** The classifier *)

Module ClassifierFacts.
Import AQIMapVisualizer Spec.

Lemma in_range_iff (rng : Z * Z) (v : Z) :
  in_range rng v = true <-> fst rng <= v <= snd rng.
Proof.
  unfold in_range. rewrite andb_true_iff, !Z.leb_le. tauto.
Qed.

Lemma in_range_false (rng : Z * Z) (v : Z) :
  in_range rng v = false <-> v < fst rng \/ snd rng < v.
Proof.
  unfold in_range. rewrite andb_false_iff, !Z.leb_gt. tauto.
Qed.

(** Decide every range test of the goal from the bounds at hand. *)
Ltac settle_ranges v :=
  repeat match goal with
    | |- context [in_range ?rng v] =>
        let E := fresh "E" in
        destruct (in_range rng v) eqn:E;
        [ apply in_range_iff in E | apply in_range_false in E ];
        cbn [fst snd] in E; try lia
    end.

Lemma scan_in_band (table : dict string) (fallback : string) (v : Z) :
  0 <= v <= 500 ->
  scan aqi_ranges table fallback v = dict_getitem table (band_of v).
Proof.
  intros Hv. unfold band_of.
  repeat match goal with
    | |- context [?a <=? ?b] => destruct (Z.leb_spec a b)
    end;
    cbn [scan aqi_ranges]; settle_ranges v; reflexivity.
Qed.

Lemma scan_out_of_band (table : dict string) (fallback : string) (v : Z) :
  v < 0 \/ 500 < v ->
  scan aqi_ranges table fallback v = Ok fallback.
Proof.
  intros Hv. cbn [scan aqi_ranges]. settle_ranges v; reflexivity.
Qed.

Lemma band_of_range (v : Z) :
  0 <= v <= 500 ->
  exists rng, In (band_of v, rng) aqi_ranges /\ in_range rng v = true.
Proof.
  intros Hv. unfold band_of.
  repeat match goal with
    | |- context [?a <=? ?b] => destruct (Z.leb_spec a b)
    end;
    eexists; (split; [ cbn; eauto 10 | apply in_range_iff; cbn; lia ]).
Qed.

Lemma range_unique (v : Z) (c1 c2 : string) (r1 r2 : Z * Z) :
  In (c1, r1) aqi_ranges -> in_range r1 v = true ->
  In (c2, r2) aqi_ranges -> in_range r2 v = true ->
  c1 = c2 /\ r1 = r2.
Proof.
  intros H1 V1 H2 V2.
  apply in_range_iff in V1. apply in_range_iff in V2.
  cbn in H1, H2.
  repeat match goal with
    | H : _ \/ _ |- _ => destruct H
    | H : (_, _) = (_, _) |- _ => inversion H; subst; clear H
    | H : False |- _ => destruct H
    end; cbn in V1, V2; try lia; split; reflexivity.
Qed.

Lemma range_within (v : Z) (c : string) (rng : Z * Z) :
  In (c, rng) aqi_ranges -> in_range rng v = true -> 0 <= v <= 500.
Proof.
  intros H V. apply in_range_iff in V. cbn in H.
  repeat match goal with
    | H : _ \/ _ |- _ => destruct H
    | H : (_, _) = (_, _) |- _ => inversion H; subst; clear H
    | H : False |- _ => destruct H
    end; cbn in V; lia.
Qed.

Lemma band_label (v : Z) :
  0 <= v <= 500 -> exists label, dict_getitem aqi_labels (band_of v) = Ok label
    /\ label <> "無資料" /\ label <> "超出範圍".
Proof.
  intros Hv. unfold band_of.
  repeat match goal with
    | |- context [?a <=? ?b] => destruct (Z.leb_spec a b)
    end;
    eexists; (split; [ reflexivity | split; discriminate ]).
Qed.

Lemma band_color (v : Z) :
  0 <= v <= 500 -> exists color, dict_getitem aqi_colors (band_of v) = Ok color
    /\ color <> "#808080".
Proof.
  intros Hv. unfold band_of.
  repeat match goal with
    | |- context [?a <=? ?b] => destruct (Z.leb_spec a b)
    end;
    eexists; (split; [ reflexivity | discriminate ]).
Qed.

(** C1.  The six inclusive ranges partition [0,500]: a value in [0,500]
    lies in the range of exactly one band, and both classifiers answer
    with that band's entry, without raising; no range reaches outside
    [0,500].  A null value gets the missing marker, and a value outside
    every range, such as -1 and 501, gets the out-of-range marker, again
    without raising.  The two markers differ from each other and from
    every band label; the colour of both is '#808080', which is no
    band's colour. *)
Theorem classifier_partitions_0_500 :
  (forall v, 0 <= v <= 500 ->
     exists category rng label color,
       In (category, rng) aqi_ranges /\ in_range rng v = true /\
       (forall category' rng',
          In (category', rng') aqi_ranges -> in_range rng' v = true ->
          category' = category /\ rng' = rng) /\
       dict_getitem aqi_labels category = Ok label /\
       dict_getitem aqi_colors category = Ok color /\
       get_aqi_category (Some v) = Ok label /\
       get_aqi_color (Some v) = Ok color /\
       label <> "無資料" /\ label <> "超出範圍" /\ color <> "#808080") /\
  (forall v category rng,
     In (category, rng) aqi_ranges -> in_range rng v = true -> 0 <= v <= 500) /\
  get_aqi_category None = Ok "無資料" /\
  (forall v, v < 0 \/ 500 < v -> get_aqi_category (Some v) = Ok "超出範圍") /\
  get_aqi_category (Some (-1)) = Ok "超出範圍" /\
  get_aqi_category (Some 501) = Ok "超出範圍" /\
  "無資料" <> "超出範圍" /\
  get_aqi_color None = Ok "#808080" /\
  (forall v, v < 0 \/ 500 < v -> get_aqi_color (Some v) = Ok "#808080").
Proof.
  split; [| split; [| split; [| split; [| split; [| split; [| split; [| split]]]]]]].
  - intros v Hv.
    destruct (band_of_range v Hv) as [rng [Hin Hrng]].
    destruct (band_label v Hv) as [label [Hlabel [Hm Ho]]].
    destruct (band_color v Hv) as [color [Hcolor Hgrey]].
    exists (band_of v), rng, label, color.
    repeat split; trivial.
    + eapply range_unique; eassumption.
    + eapply range_unique; eassumption.
    + cbn [get_aqi_category]. rewrite scan_in_band; assumption.
    + cbn [get_aqi_color]. rewrite scan_in_band; assumption.
  - intros v category rng. apply range_within.
  - reflexivity.
  - intros v Hv. cbn [get_aqi_category]. apply scan_out_of_band, Hv.
  - reflexivity.
  - reflexivity.
  - discriminate.
  - reflexivity.
  - intros v Hv. cbn [get_aqi_color]. apply scan_out_of_band, Hv.
Qed.

(** The value 600, through [classifier_partitions_0_500]. *)
Lemma classifier_partitions_0_500_witness :
  get_aqi_category (Some 600) = Ok "超出範圍".
Proof.
  apply (proj1 (proj2 (proj2 (proj2 classifier_partitions_0_500))) 600).
  right. lia.
Defined.

(** C9.  For a value outside all six bands (negative, or above 500)
    [get_aqi_color] answers '#808080', the colour it also gives a null
    value, while [get_aqi_category] keeps the two cases apart. *)
Theorem out_of_range_color_is_missing_color (v : Z) :
  v < 0 \/ 500 < v ->
  get_aqi_color (Some v) = Ok "#808080" /\
  get_aqi_color None = Ok "#808080" /\
  get_aqi_color (Some v) = get_aqi_color None /\
  get_aqi_category (Some v) = Ok "超出範圍" /\
  get_aqi_category None = Ok "無資料" /\
  get_aqi_category (Some v) <> get_aqi_category None.
Proof.
  intros Hv.
  assert (Hcolor : get_aqi_color (Some v) = Ok "#808080")
    by (cbn [get_aqi_color]; apply scan_out_of_band, Hv).
  assert (Hcat : get_aqi_category (Some v) = Ok "超出範圍")
    by (cbn [get_aqi_category]; apply scan_out_of_band, Hv).
  rewrite Hcolor, Hcat. cbn [get_aqi_color get_aqi_category].
  repeat split; discriminate.
Qed.

Lemma out_of_range_color_is_missing_color_witness :
  (501 < 0 \/ 500 < 501) /\
  get_aqi_color (Some 501) = Ok "#808080" /\
  get_aqi_color None = Ok "#808080" /\
  get_aqi_color (Some 501) = get_aqi_color None /\
  get_aqi_category (Some 501) = Ok "超出範圍" /\
  get_aqi_category None = Ok "無資料" /\
  get_aqi_category (Some 501) <> get_aqi_category None.
Proof.
  assert (H : 501 < 0 \/ 500 < 501) by (right; lia).
  split; [ exact H | exact (out_of_range_color_is_missing_color 501 H) ].
Defined.

End ClassifierFacts.

(** ** The band counter and the statistics of the map script *)

Module SummaryFacts.
Import DataFrame AQIMapVisualizer Spec.

Lemma count_categories_table (df : DataFrame.t) :
  count_categories aqi_ranges df [] =
    [ ("good", count_between df (0, 50));
      ("moderate", count_between df (51, 100));
      ("unhealthy_sensitive", count_between df (101, 150));
      ("unhealthy", count_between df (151, 200));
      ("very_unhealthy", count_between df (201, 300));
      ("hazardous", count_between df (301, 500)) ].
Proof. reflexivity. Qed.

Lemma category_counts_of_table (df : DataFrame.t) :
  category_counts_of df =
    count_categories aqi_ranges df []
    ++ (if (0 <? missing_count df)%nat
        then [("missing", missing_count df)] else []).
Proof.
  unfold category_counts_of. rewrite count_categories_table.
  destruct (0 <? missing_count df)%nat; reflexivity.
Qed.

Lemma filter_length_cons {A : Type} (f : A -> bool) (x : A) (l : list A) :
  List.length (filter f (x :: l))
  = ((if f x then 1 else 0) + List.length (filter f l))%nat.
Proof. cbn [filter]. destruct (f x); reflexivity. Qed.

Lemma missing_count_positive (df : DataFrame.t) :
  (0 < missing_count df)%nat <-> exists r, In r df /\ aqi r = NaN.
Proof.
  unfold missing_count. induction df as [| r df IH].
  - cbn. split; [ lia | intros [r [[] _]] ].
  - rewrite filter_length_cons. unfold aqi_isna at 1, isna.
    destruct (aqi r) eqn:Er.
    + split; [ intros _; exists r; split; [ left; reflexivity | exact Er ] | lia ].
    + cbn [Nat.add]. rewrite IH. split.
      * intros [r' [Hin Hr']]. exists r'. split; [ right; exact Hin | exact Hr' ].
      * intros [r' [[Heq | Hin] Hr']].
        -- subst r'. rewrite Er in Hr'. discriminate.
        -- exists r'. split; assumption.
Qed.

(** One reading adds one to exactly one of: a band, the missing tally,
    the readings outside every band. *)
Lemma one_reading_one_class (r : row) :
  ((if aqi_between 0%Z 50%Z r then 1 else 0)
   + (if aqi_between 51%Z 100%Z r then 1 else 0)
   + (if aqi_between 101%Z 150%Z r then 1 else 0)
   + (if aqi_between 151%Z 200%Z r then 1 else 0)
   + (if aqi_between 201%Z 300%Z r then 1 else 0)
   + (if aqi_between 301%Z 500%Z r then 1 else 0)
   + (if aqi_isna r then 1 else 0)
   + (if aqi_out_of_range r then 1 else 0) = 1)%nat.
Proof.
  unfold aqi_between, aqi_isna, isna, aqi_out_of_range.
  destruct (aqi r) as [| v]; [ reflexivity |].
  repeat match goal with
    | |- context [?a <=? ?b] => destruct (Z.leb_spec a b); try lia
    | |- context [?a <? ?b] => destruct (Z.ltb_spec a b); try lia
    end; reflexivity.
Qed.

Lemma counts_cover_frame (df : DataFrame.t) :
  (count_between df (0%Z, 50%Z) + count_between df (51%Z, 100%Z)
   + count_between df (101%Z, 150%Z) + count_between df (151%Z, 200%Z)
   + count_between df (201%Z, 300%Z) + count_between df (301%Z, 500%Z)
   + missing_count df
   + List.length (filter aqi_out_of_range df) = List.length df)%nat.
Proof.
  unfold count_between, missing_count. cbn [fst snd].
  induction df as [| r df IH]; [ reflexivity |].
  rewrite !filter_length_cons. cbn [List.length].
  pose proof (one_reading_one_class r). lia.
Qed.

Lemma buckets_at_most_one (r : row) : (List.length (buckets_of r) <= 1)%nat.
Proof.
  unfold buckets_of. cbn [aqi_ranges filter fst snd].
  unfold aqi_between, aqi_isna, isna.
  destruct (aqi r) as [| v]; [ cbn; lia |].
  repeat match goal with
    | |- context [?a <=? ?b] => destruct (Z.leb_spec a b); try lia
    end; cbn; lia.
Qed.

Lemma filter_ext_length {A : Type} (f g : A -> bool) (l : list A) :
  (forall x, f x = g x) ->
  List.length (filter f l) = List.length (filter g l).
Proof.
  intros H. induction l as [| x l IH]; [ reflexivity |].
  rewrite !filter_length_cons, H, IH. reflexivity.
Qed.

(** The count stored under a key is the number of readings that key's
    test admits. *)
Lemma counts_are_bucket_counts (df : DataFrame.t) (k : string) (c : nat) :
  In (k, c) (category_counts_of df) ->
  c = List.length (filter (counted_in k) df).
Proof.
  rewrite category_counts_of_table, count_categories_table.
  intros Hin. apply in_app_or in Hin. destruct Hin as [Hin | Hin].
  - cbn in Hin.
    repeat match goal with
      | H : _ \/ _ |- _ => destruct H
      | H : (_, _) = (_, _) |- _ => inversion H; subst; clear H
      | H : False |- _ => destruct H
      end;
      unfold count_between; cbn [fst snd]; apply filter_ext_length; intros r;
      unfold counted_in, buckets_of; cbn [aqi_ranges filter fst snd];
      unfold aqi_between, aqi_isna, isna;
      (destruct (aqi r) as [| v]; [ reflexivity |]);
      repeat match goal with
        | |- context [?a <=? ?b] => destruct (Z.leb_spec a b); try lia
        end; reflexivity.
  - destruct (0 <? missing_count df)%nat; [| destruct Hin ].
    destruct Hin as [Hin | []]. inversion Hin; subst; clear Hin.
    unfold missing_count. apply filter_ext_length. intros r.
    unfold counted_in, buckets_of. cbn [aqi_ranges filter fst snd].
    unfold aqi_between, aqi_isna, isna.
    destruct (aqi r) as [| v]; [ reflexivity |].
    repeat match goal with
      | |- context [?a <=? ?b] => destruct (Z.leb_spec a b); try lia
      end; reflexivity.
Qed.

Lemma bucket_sum (df : DataFrame.t) :
  (sum_nat (dict_values (category_counts_of df))
   + List.length (filter aqi_out_of_range df) = List.length df)%nat.
Proof.
  rewrite category_counts_of_table, count_categories_table.
  pose proof (counts_cover_frame df) as H.
  destruct (0 <? missing_count df)%nat eqn:E.
  - cbn [app dict_values map snd sum_nat fold_right]. lia.
  - apply Nat.ltb_ge in E. cbn [app dict_values map snd sum_nat fold_right]. lia.
Qed.

Lemma filter_none {A : Type} (f : A -> bool) (l : list A) :
  (forall x, In x l -> f x = false) -> filter f l = [].
Proof.
  induction l as [| x l IH]; intros H; [ reflexivity |].
  cbn [filter]. rewrite (H x (or_introl eq_refl)).
  apply IH. intros y Hy. apply H. right. exact Hy.
Qed.

Lemma create_statistics_summary_returns (now : string) (df : DataFrame.t) :
  exists st,
    create_statistics_summary now (Some df)
    = Ok (Some {| total_stations := List.length df;
                  stations_with_data := List.length (valid_aqi df);
                  stations_missing_data := missing_count df;
                  category_distribution := category_counts_of df;
                  statistics := st;
                  timestamp := now |}).
Proof.
  unfold create_statistics_summary, if_nonempty.
  destruct (valid_aqi df) as [| v vs] eqn:E.
  - cbn. eexists. reflexivity.
  - cbn [List.length Nat.ltb Nat.leb series_max series_min series_mean
         series_median int_of_cell round1_cell bind].
    destruct (Nat.even _); cbn [int_of_float_cell bind];
      eexists; reflexivity.
Qed.

Lemma no_valid_aqi_no_statistics (now : string) (df : DataFrame.t) :
  valid_aqi df = [] ->
  exists s, create_statistics_summary now (Some df) = Ok (Some s)
    /\ statistics s = {| max_aqi := None; min_aqi := None;
                    avg_aqi := None; median_aqi := None |}.
Proof.
  intros E. unfold create_statistics_summary, if_nonempty. rewrite E. cbn.
  eexists. split; reflexivity.
Qed.

(** C2, as the code has it.  [create_statistics_summary] returns, and
    the counts of its [category_distribution] (the six bands, and the
    missing tally when there is one) add up to the size of the frame
    less the readings whose AQI is a number outside every band; so they
    add up to the size of the frame when no reading is out of range.
    Each count is the number of readings its key admits, and a reading
    is admitted by at most one key. *)
Theorem band_counts_sum (now : string) (df : DataFrame.t) :
  exists s,
    create_statistics_summary now (Some df) = Ok (Some s) /\
    (sum_nat (dict_values (category_distribution s))
     + List.length (filter aqi_out_of_range df) = List.length df)%nat /\
    (forall k c, In (k, c) (category_distribution s) ->
                 c = List.length (filter (counted_in k) df)) /\
    (forall r, (List.length (buckets_of r) <= 1)%nat) /\
    ((forall r, In r df -> aqi_out_of_range r = false) ->
     sum_nat (dict_values (category_distribution s)) = List.length df).
Proof.
  destruct (create_statistics_summary_returns now df) as [st Hs].
  eexists. split; [ exact Hs |]. cbn [category_distribution].
  split; [ apply bucket_sum |].
  split; [ apply counts_are_bucket_counts |].
  split; [ apply buckets_at_most_one |].
  intros Hin. pose proof (bucket_sum df) as H.
  rewrite (filter_none _ _ Hin) in H. cbn [List.length] in H. lia.
Qed.

(** C2, as the specification states it, fails on a frame with one reading of AQI
    501: the frame has one row and every count is zero. *)
Lemma band_counts_sum_counterexample :
  exists s,
    create_statistics_summary "" (Some [reading (Val 501)]) = Ok (Some s) /\
    dict_values (category_distribution s) = [0; 0; 0; 0; 0; 0]%nat /\
    sum_nat (dict_values (category_distribution s)) = 0%nat /\
    List.length [reading (Val 501)] = 1%nat.
Proof.
  eexists. split; [ reflexivity |]. repeat split.
Qed.

(** C10.  The distribution has the key 'missing' exactly when some
    reading has a null AQI; without such a reading its keys are the six
    band keys, and with one they are the six band keys and 'missing'. *)
Theorem missing_key_iff_null_reading (now : string) (df : DataFrame.t) :
  exists s,
    create_statistics_summary now (Some df) = Ok (Some s) /\
    (In "missing" (dict_keys (category_distribution s))
     <-> exists r, In r df /\ aqi r = NaN) /\
    ((forall r, In r df -> aqi r <> NaN) ->
     dict_keys (category_distribution s) = band_keys) /\
    ((exists r, In r df /\ aqi r = NaN) ->
     dict_keys (category_distribution s) = band_keys ++ ["missing"]).
Proof.
  destruct (create_statistics_summary_returns now df) as [st Hs].
  eexists. split; [ exact Hs |]. cbn [category_distribution].
  rewrite category_counts_of_table, count_categories_table.
  pose proof (missing_count_positive df) as Hm.
  destruct (0 <? missing_count df)%nat eqn:E.
  - apply Nat.ltb_lt in E. apply Hm in E.
    split; [ split; [ intros _; exact E | intros _; cbn; tauto ] |].
    split; [| intros _; reflexivity ].
    intros Hno. destruct E as [r [Hin Hr]]. destruct (Hno r Hin Hr).
  - apply Nat.ltb_ge in E.
    assert (Hnone : ~ exists r, In r df /\ aqi r = NaN)
      by (intros Hex; apply Hm in Hex; lia).
    split; [ split; [| intros Hex; destruct (Hnone Hex) ] |].
    + cbn. intros H.
      repeat match goal with
        | H : _ \/ _ |- _ => destruct H
        | H : False |- _ => destruct H
        end; discriminate.
    + split; [ intros _; reflexivity | intros Hex; destruct (Hnone Hex) ].
Qed.

End SummaryFacts.

(** ** The aggregators *)

Module AggregatorFacts.
Import Spec.

Lemma generate_summary_no_values (now : string)
    (processed_data high : list AQIMonitor.processed_record) :
  processed_data <> [] ->
  AQIMonitor.aqi_values_of processed_data = [] ->
  exists s,
    AQIMonitor.generate_summary now processed_data high = Ok (Some s) /\
    AQIMonitor.max_aqi s = None /\ AQIMonitor.min_aqi s = None /\
    AQIMonitor.avg_aqi s = None.
Proof.
  intros Hne Hvals. destruct processed_data as [| p rest]; [ congruence |].
  unfold AQIMonitor.generate_summary. rewrite Hvals.
  cbn [List.length Nat.ltb Nat.leb AQIMonitor.if_values bind].
  unfold py_truediv.
  destruct (Z.of_nat (S (List.length rest)) =? 0) eqn:E;
    [ apply Z.eqb_eq in E; lia |].
  cbn [bind]. eexists. repeat split.
Qed.

(** C8.  Without a valid AQI value (an empty frame in particular)
    [create_statistics_summary] returns a summary whose max, min, mean
    and median are all null, and raises nothing; on the AQI values
    10, 20, 30 its max is 30, its min 10, its mean 20 and its median 20.
    [generate_summary] answers null on an empty list, null max, min and
    mean on a list without AQI values, and max 30, min 10, mean 20 on
    the values 10, 20, 30. *)
Theorem aggregator_empty_and_sample (now : string) :
  (forall df, DataFrame.valid_aqi df = [] ->
     exists s,
       AQIMapVisualizer.create_statistics_summary now (Some df) = Ok (Some s) /\
       AQIMapVisualizer.statistics s
       = AQIMapVisualizer.mk_statistics None None None None) /\
  (exists s,
     AQIMapVisualizer.create_statistics_summary now (Some []) = Ok (Some s) /\
     AQIMapVisualizer.total_stations s = 0%nat /\
     AQIMapVisualizer.statistics s
     = AQIMapVisualizer.mk_statistics None None None None) /\
  (exists s,
     AQIMapVisualizer.create_statistics_summary now
       (Some (map reading [DataFrame.Val 10; DataFrame.Val 20; DataFrame.Val 30]))
     = Ok (Some s) /\
     AQIMapVisualizer.statistics s
     = AQIMapVisualizer.mk_statistics
         (Some 30) (Some 10) (Some (DataFrame.Val (inject_Z 20))) (Some 20)) /\
  (forall high, AQIMonitor.generate_summary now [] high = Ok None) /\
  (forall processed_data high,
     processed_data <> [] ->
     AQIMonitor.aqi_values_of processed_data = [] ->
     exists s,
       AQIMonitor.generate_summary now processed_data high = Ok (Some s) /\
       AQIMonitor.max_aqi s = None /\ AQIMonitor.min_aqi s = None /\
       AQIMonitor.avg_aqi s = None) /\
  (exists s,
     AQIMonitor.generate_summary now
       (map processed_with_aqi [Some 10; Some 20; Some 30]) []
     = Ok (Some s) /\
     AQIMonitor.max_aqi s = Some 30 /\ AQIMonitor.min_aqi s = Some 10 /\
     AQIMonitor.avg_aqi s = Some (inject_Z 20)).
Proof.
  split; [ intros df; apply SummaryFacts.no_valid_aqi_no_statistics |].
  split.
  { destruct (SummaryFacts.no_valid_aqi_no_statistics now [] eq_refl)
      as [s [Hs Hst]].
    exists s. split; [ exact Hs |]. split; [| exact Hst ].
    cbn in Hs. inversion Hs. reflexivity. }
  split; [ eexists; split; reflexivity |].
  split; [ reflexivity |].
  split; [ apply generate_summary_no_values |].
  eexists. split; [ reflexivity |]. repeat split.
Qed.

(** A frame whose only reading has no AQI, through
    [aggregator_empty_and_sample]. *)
Lemma aggregator_empty_and_sample_witness :
  exists s,
    AQIMapVisualizer.create_statistics_summary ""
      (Some [reading DataFrame.NaN]) = Ok (Some s) /\
    AQIMapVisualizer.statistics s
    = AQIMapVisualizer.mk_statistics None None None None.
Proof.
  exact (proj1 (aggregator_empty_and_sample "") [reading DataFrame.NaN] eq_refl).
Defined.

End AggregatorFacts.

(** ** The stable sort *)

Section StableSortFacts.
Context {A : Type}.
Variable key : A -> Z.

(** Descending by [key]. *)
Let desc (x y : A) : bool := key y <=? key x.

Lemma insert_sorted_perm (precedes : A -> A -> bool) (x : A) (l : list A) :
  Permutation (insert_sorted precedes x l) (x :: l).
Proof.
  induction l as [| y l IH]; cbn [insert_sorted]; [ apply Permutation_refl |].
  destruct (precedes x y); [ apply Permutation_refl |].
  eapply perm_trans; [ apply perm_skip, IH | apply perm_swap ].
Qed.

Lemma stable_sort_perm (precedes : A -> A -> bool) (l : list A) :
  Permutation (stable_sort precedes l) l.
Proof.
  induction l as [| x l IH]; cbn [stable_sort]; [ apply perm_nil |].
  eapply perm_trans; [ apply insert_sorted_perm | apply perm_skip, IH ].
Qed.

Lemma insert_sorted_desc (x : A) (l : list A) :
  StronglySorted (fun a b => key b <= key a) l ->
  StronglySorted (fun a b => key b <= key a) (insert_sorted desc x l).
Proof.
  induction 1 as [| y l Hsorted IH Hall]; cbn [insert_sorted].
  - constructor; constructor.
  - unfold desc at 1. destruct (Z.leb_spec (key y) (key x)) as [Hle | Hgt].
    + constructor; [ constructor; assumption |].
      constructor; [ exact Hle |].
      eapply Forall_impl; [| exact Hall ]. cbn. intros; lia.
    + constructor; [ exact IH |].
      eapply Permutation_Forall;
        [ apply Permutation_sym, insert_sorted_perm |].
      constructor; [ lia | exact Hall ].
Qed.

Lemma stable_sort_desc (l : list A) :
  StronglySorted (fun a b => key b <= key a) (stable_sort desc l).
Proof.
  induction l as [| x l IH]; cbn [stable_sort]; [ constructor |].
  apply insert_sorted_desc, IH.
Qed.

(** Equal keys keep their input order: the readings of any one key read
    the same before and after the sort. *)
Lemma insert_sorted_stable (k : Z) (x : A) (l : list A) :
  filter (fun y => key y =? k) (insert_sorted desc x l)
  = filter (fun y => key y =? k) (x :: l).
Proof.
  induction l as [| y l IH]; cbn [insert_sorted]; [ reflexivity |].
  unfold desc at 1. destruct (Z.leb_spec (key y) (key x)) as [Hle | Hgt];
    [ reflexivity |].
  cbn [filter] in *. rewrite IH.
  destruct (Z.eqb_spec (key x) k), (Z.eqb_spec (key y) k);
    try reflexivity; lia.
Qed.

Lemma stable_sort_stable (k : Z) (l : list A) :
  filter (fun y => key y =? k) (stable_sort desc l)
  = filter (fun y => key y =? k) l.
Proof.
  induction l as [| x l IH]; cbn [stable_sort]; [ reflexivity |].
  rewrite insert_sorted_stable. cbn [filter]. rewrite IH. reflexivity.
Qed.

End StableSortFacts.

(** ** The threshold filter *)

Module FilterFacts.
Import AQIMonitor Spec.

Lemma Qlt_bool_iff (x y : Q) : Qlt_bool x y = true <-> (x < y)%Q.
Proof.
  unfold Qlt_bool. rewrite negb_true_iff. split; intros H.
  - apply Qnot_le_lt. intros Hle. apply Qle_bool_iff in Hle. congruence.
  - destruct (Qle_bool y x) eqn:E; [| reflexivity ].
    apply Qle_bool_iff in E. destruct (Qlt_not_le _ _ H E).
Qed.

(** What the code asks of a reading: an AQI that is a number, not zero,
    and above the threshold. *)
Lemma is_high_iff (threshold : Q) (station : processed_record) :
  is_high threshold station = true
  <-> exists v, aqi station = Some v /\ v <> 0 /\ (threshold < inject_Z v)%Q.
Proof.
  unfold is_high. destruct (aqi station) as [v |].
  - rewrite andb_true_iff, negb_true_iff, Z.eqb_neq, Qlt_bool_iff. split.
    + intros [Hz Hlt]. exists v. auto.
    + intros [v' [Hv [Hz Hlt]]]. inversion Hv; subst. auto.
  - split; [ discriminate | intros [v [Hv _]]; discriminate ].
Qed.

Lemma is_high_nonneg (threshold : Q) (station : processed_record) :
  (0 <= threshold)%Q ->
  is_high threshold station = above_threshold threshold station.
Proof.
  intros Ht. unfold is_high, above_threshold.
  destruct (aqi station) as [v |]; [| reflexivity ].
  destruct (Z.eqb_spec v 0) as [Hz | Hz]; [| reflexivity ].
  subst v. cbn [negb andb]. symmetry.
  destruct (Qlt_bool threshold (inject_Z 0)) eqn:E; [| reflexivity ].
  apply Qlt_bool_iff in E. destruct (Qlt_not_le _ _ E Ht).
Qed.

Lemma identify_high_unfold (processed_data : list processed_record)
    (threshold : Q) :
  identify_high_aqi_stations processed_data threshold
  = stable_sort key_desc (filter (is_high threshold) processed_data).
Proof. destruct processed_data; reflexivity. Qed.

(** For a threshold that is not negative the filter is the one the
    specification describes: the readings with a non-null AQI above the
    threshold and no others, sorted non-increasing by AQI, readings of
    equal AQI in input order. *)
Theorem identify_high_nonneg_threshold
    (processed_data : list processed_record) (threshold : Q) :
  (0 <= threshold)%Q ->
  identify_high_aqi_stations processed_data threshold
  = stable_sort key_desc (filter (above_threshold threshold) processed_data) /\
  Permutation (identify_high_aqi_stations processed_data threshold)
              (filter (above_threshold threshold) processed_data) /\
  StronglySorted (fun a b => sort_key b <= sort_key a)
                 (identify_high_aqi_stations processed_data threshold) /\
  (forall k,
     filter (fun s => sort_key s =? k)
            (identify_high_aqi_stations processed_data threshold)
     = filter (fun s => sort_key s =? k)
              (filter (above_threshold threshold) processed_data)) /\
  (forall s, In s (identify_high_aqi_stations processed_data threshold) ->
     exists v, aqi s = Some v /\ sort_key s = v /\ (threshold < inject_Z v)%Q).
Proof.
  intros Ht. rewrite identify_high_unfold.
  assert (E : filter (is_high threshold) processed_data
              = filter (above_threshold threshold) processed_data).
  { apply filter_ext. intros s. apply is_high_nonneg, Ht. }
  rewrite E.
  split; [ reflexivity |].
  split; [ apply stable_sort_perm |].
  split; [ apply (stable_sort_desc sort_key) |].
  split; [ intros k; apply (stable_sort_stable sort_key) |].
  intros s Hin.
  eapply Permutation_in in Hin; [| apply stable_sort_perm ].
  apply filter_In in Hin. destruct Hin as [_ Hs].
  unfold above_threshold in Hs. unfold sort_key.
  destruct (aqi s) as [v |]; [| discriminate ].
  exists v. apply Qlt_bool_iff in Hs. auto.
Qed.

(** The default threshold on five readings, two of them of AQI 60. *)
Lemma identify_high_nonneg_threshold_witness :
  (0 <= default_threshold)%Q /\
  identify_high_aqi_stations
    (map processed_with_aqi [Some 60; None; Some 40; Some 75; Some 60])
    default_threshold
  = stable_sort key_desc
      (filter (above_threshold default_threshold)
         (map processed_with_aqi [Some 60; None; Some 40; Some 75; Some 60])).
Proof.
  assert (H : (0 <= default_threshold)%Q) by (cbv; discriminate).
  split; [ exact H |].
  exact (proj1 (identify_high_nonneg_threshold
                  (map processed_with_aqi
                       [Some 60; None; Some 40; Some 75; Some 60])
                  default_threshold H)).
Defined.

(** Whatever the threshold, no returned reading has a null AQI or an
    AQI at or below the threshold, and the result is sorted. *)
Lemma identify_high_sound (processed_data : list processed_record)
    (threshold : Q) :
  StronglySorted (fun a b => sort_key b <= sort_key a)
                 (identify_high_aqi_stations processed_data threshold) /\
  (forall s, In s (identify_high_aqi_stations processed_data threshold) ->
     In s processed_data /\
     exists v, aqi s = Some v /\ (threshold < inject_Z v)%Q).
Proof.
  rewrite identify_high_unfold.
  split; [ apply (stable_sort_desc sort_key) |].
  intros s Hin.
  eapply Permutation_in in Hin; [| apply stable_sort_perm ].
  apply filter_In in Hin. destruct Hin as [Hin Hs].
  split; [ exact Hin |].
  apply is_high_iff in Hs. destruct Hs as [v [Hv [_ Hlt]]]. eauto.
Qed.

(** C3 at threshold -1.  A reading of AQI 0, as the raw record
    [{'aqi': '0'}] gives it, has a non-null AQI above the threshold, and
    the filter returns nothing: the truth test [station['aqi'] and ...]
    takes 0 for a missing value. *)
Theorem zero_aqi_lost_below_zero_threshold :
  process_aqi_data decimal_int decimal_float [[("aqi", PStr "0")]]
  = Ok (Some [processed_with_aqi (Some 0)]) /\
  aqi (processed_with_aqi (Some 0)) = Some 0 /\
  above_threshold (inject_Z (-1)) (processed_with_aqi (Some 0)) = true /\
  filter (above_threshold (inject_Z (-1))) [processed_with_aqi (Some 0)]
  = [processed_with_aqi (Some 0)] /\
  identify_high_aqi_stations [processed_with_aqi (Some 0)] (inject_Z (-1)) = [].
Proof. repeat split. Qed.

End FilterFacts.

(** ** The normalizer *)

Module NormalizerFacts.
Import AQIMonitor Spec.

Section PerRecord.
Variable int_of_str : string -> option Z.
Variable float_of_str : string -> option float.

Local Abbreviation process_record := (AQIMonitor.process_record int_of_str float_of_str).
Local Abbreviation process_loop := (AQIMonitor.process_loop int_of_str float_of_str).
Local Abbreviation process_aqi_data := (AQIMonitor.process_aqi_data int_of_str float_of_str).
Local Abbreviation kept := (kept_records int_of_str float_of_str).
Local Abbreviation benign := (Spec.benign int_of_str float_of_str).

Lemma caught_cases (e : exn) :
  caught e = true -> e = ValueError \/ e = TypeError.
Proof. destruct e; cbn; intros H; try discriminate; auto. Qed.

Lemma process_loop_kept (raw_data : list raw_record)
    (processed_data : list processed_record) :
  (forall r, In r raw_data -> benign r) ->
  process_loop raw_data processed_data = Ok (processed_data ++ kept raw_data).
Proof.
  revert processed_data.
  induction raw_data as [| record rest IH]; intros processed_data Hb.
  - cbn. rewrite app_nil_r. reflexivity.
  - cbn [AQIMonitor.process_loop kept_records flat_map].
    pose proof (Hb record (or_introl eq_refl)) as Hrecord.
    assert (Hrest : forall r, In r rest -> benign r)
      by (intros r Hr; apply Hb; right; exact Hr).
    destruct (process_record record) as [processed | e] eqn:E.
    + rewrite IH by exact Hrest. rewrite <- app_assoc. reflexivity.
    + destruct (caught_cases e (Hrecord e E)); subst e;
        rewrite IH by exact Hrest; reflexivity.
Qed.

Lemma process_aqi_data_kept (raw_data : list raw_record) :
  raw_data <> [] ->
  (forall r, In r raw_data -> benign r) ->
  process_aqi_data raw_data = Ok (Some (kept raw_data)).
Proof.
  intros Hne Hb. destruct raw_data as [| record rest]; [ congruence |].
  unfold AQIMonitor.process_aqi_data. rewrite process_loop_kept by exact Hb.
  reflexivity.
Qed.





Lemma falsy_int_field (record : raw_record) (k : string) :
  truthy (record_get record k) = false ->
  int_field int_of_str record k = Ok None.
Proof. intros H. unfold int_field. rewrite H. reflexivity. Qed.


Lemma batch_nonempty (pre post : list raw_record) (record : raw_record) :
  pre ++ record :: post <> [].
Proof. destruct pre; discriminate. Qed.


(** Split a [Forall] over a list written out into its members. *)
Ltac split_forall :=
  repeat match goal with
    | H : Forall _ (_ :: _) |- _ => inversion H; clear H; subst
    | H : Forall _ [] |- _ => clear H
    | H : coerces _ _ _ |- _ => destruct H
    end.

Lemma falsy_aqi_record_coerces (record : raw_record) :
  truthy (record_get record "aqi") = false ->
  Forall (coerces float_of_str record) float_keys ->
  exists p, process_record record = Ok p /\ aqi p = None.
Proof.
  intros Haqi Hfloats.
  unfold float_keys, float_keys_before_latitude in Hfloats.
  cbn [app] in Hfloats. split_forall.
  unfold AQIMonitor.process_record.
  rewrite (falsy_int_field record "aqi" Haqi).
  repeat match goal with
    | H : float_field _ _ _ = Ok _ |- _ => rewrite H; clear H
    end.
  cbn [bind]. eexists. split; reflexivity.
Qed.



(** The literal string N/A is truthy: when [int] does not accept it the
    record faults, it is not read as a missing value. *)
Lemma unparsable_aqi_faults (record : raw_record) (s : string) :
  dict_get record "aqi" = Some (PStr s) -> s <> "" ->
  int_of_str s = None ->
  process_record record = Raise ValueError.
Proof.
  intros Hget Hs Hparse.
  unfold AQIMonitor.process_record, int_field, record_get, record_get_default.
  rewrite Hget. cbn [truthy].
  destruct (String.eqb_spec s ""); [ contradiction |].
  cbn [negb py_int]. rewrite Hparse. reflexivity.
Qed.

Lemma process_loop_uncaught (pre post : list raw_record)
    (record : raw_record) (e : exn) (processed_data : list processed_record) :
  (forall r, In r pre -> benign r) ->
  process_record record = Raise e -> caught e = false ->
  process_loop (pre ++ record :: post) processed_data = Raise e.
Proof.
  revert processed_data.
  induction pre as [| first pre IH]; intros processed_data Hb E Hc.
  - cbn [app AQIMonitor.process_loop]. rewrite E.
    destruct e; cbn in Hc; try discriminate; reflexivity.
  - cbn [app AQIMonitor.process_loop].
    assert (Hpre : forall r, In r pre -> benign r)
      by (intros r Hr; apply Hb; right; exact Hr).
    pose proof (Hb first (or_introl eq_refl)) as Hfirst.
    destruct (AQIMonitor.process_record int_of_str float_of_str first)
      as [p | e1] eqn:E1.
    + apply IH; assumption.
    + destruct (caught_cases e1 (Hfirst e1 E1)); subst e1;
        apply IH; assumption.
Qed.

(** The [except] clause names [ValueError] and [TypeError] only: a
    record whose coercion raises another exception ([OverflowError], from
    [float] of an integer beyond the binary64 range or [int] of an
    infinite float) ends the whole batch with that exception. *)
Theorem uncaught_fault_ends_batch (pre post : list raw_record)
    (record : raw_record) (e : exn) :
  (forall r, In r pre -> benign r) ->
  process_record record = Raise e -> caught e = false ->
  process_aqi_data (pre ++ record :: post) = Raise e.
Proof.
  intros Hb E Hc. unfold AQIMonitor.process_aqi_data.
  rewrite (process_loop_uncaught pre post record e [] Hb E Hc).
  destruct (pre ++ record :: post) eqn:El; [| reflexivity ].
  destruct (batch_nonempty pre post record El).
Qed.

End PerRecord.

(** A batch whose second record has the integer 2^1024 as pm2.5. *)
Lemma uncaught_fault_ends_batch_witness :
  process_aqi_data decimal_int decimal_float
    ([ [("aqi", PStr "51")] ]
     ++ [("pm2.5", PInt (2 ^ 1024))]
     :: [ [("aqi", PStr "")] ])
  = Raise OverflowError.
Proof.
  refine (uncaught_fault_ends_batch decimal_int decimal_float
            [ [("aqi", PStr "51")] ] [ [("aqi", PStr "")] ]
            [("pm2.5", PInt (2 ^ 1024))] OverflowError _ eq_refl eq_refl).
  intros r [Hr | []]; subst r; intros e He; discriminate He.
Defined.



End NormalizerFacts.

(** ** The haversine distance *)

Module HaversineFacts.
Import DistanceAnalyzer Spec.
Local Open Scope R_scope.

Lemma cos_product (x y : R) : cos x * cos y = (cos (y - x) + cos (y + x)) / 2.
Proof. rewrite cos_minus, cos_plus. lra. Qed.

Lemma cos_of_double_half (t : R) : cos t = 1 - 2 * sin (t / 2) ^ 2.
Proof.
  replace t with (2 * (t / 2)) at 1 by lra.
  rewrite cos_2a_sin. ring.
Qed.

(** The quantity under the root lies in [0,1], so neither [math.sqrt]
    nor [math.asin] leaves its domain. *)
Lemma haversine_a_bounds (lat1 lon1 lat2 lon2 : R) :
  0 <= haversine_a lat1 lon1 lat2 lon2 <= 1.
Proof.
  unfold haversine_a.
  set (x := radians lat1). set (y := radians lat2).
  set (dl := radians lon2 - radians lon1).
  rewrite cos_product, (cos_of_double_half (y - x)).
  pose proof (COS_bound (y + x)) as [Hc1 Hc2].
  pose proof (SIN_bound ((y - x) / 2)) as [Hu1 Hu2].
  pose proof (SIN_bound (dl / 2)) as [Hs1 Hs2].
  set (u := sin ((y - x) / 2)) in *. set (v := sin (dl / 2)) in *.
  set (c := cos (y + x)) in *.
  assert (HU : 0 <= u ^ 2 <= 1) by nra.
  assert (HS : 0 <= v ^ 2 <= 1) by nra.
  set (U := u ^ 2) in *. set (S := v ^ 2) in *.
  split; nra.
Qed.

Lemma haversine_distance_value (lat1 lon1 lat2 lon2 : R) :
  haversine_distance lat1 lon1 lat2 lon2
  = Ok (2 * asin (sqrt (haversine_a lat1 lon1 lat2 lon2)) * 6371).
Proof.
  pose proof (haversine_a_bounds lat1 lon1 lat2 lon2) as [Ha0 Ha1].
  unfold haversine_distance. cbv zeta. fold (haversine_a lat1 lon1 lat2 lon2).
  set (a := haversine_a lat1 lon1 lat2 lon2) in *.
  unfold py_sqrt. destruct (Rlt_dec a 0) as [Hneg | _]; [ lra |].
  cbn [bind]. unfold py_asin.
  pose proof (sqrt_pos a) as Hroot0.
  assert (Hroot1 : sqrt a <= 1)
    by (rewrite <- sqrt_1; apply sqrt_le_1_alt; exact Ha1).
  destruct (Rlt_dec (sqrt a) (-1)) as [Hlow | _]; [ lra |].
  destruct (Rlt_dec 1 (sqrt a)) as [Hhigh | _]; [ lra |].
  reflexivity.
Qed.



Lemma haversine_a_same_point (lat lon : R) : haversine_a lat lon lat lon = 0.
Proof.
  unfold haversine_a.
  replace ((radians lat - radians lat) / 2) with 0 by lra.
  replace ((radians lon - radians lon) / 2) with 0 by lra.
  rewrite sin_0. ring.
Qed.

Lemma haversine_a_sym (lat1 lon1 lat2 lon2 : R) :
  haversine_a lat1 lon1 lat2 lon2 = haversine_a lat2 lon2 lat1 lon1.
Proof.
  unfold haversine_a.
  replace ((radians lat2 - radians lat1) / 2)
    with (- ((radians lat1 - radians lat2) / 2)) by lra.
  replace ((radians lon2 - radians lon1) / 2)
    with (- ((radians lon1 - radians lon2) / 2)) by lra.
  rewrite !sin_neg. ring.
Qed.

(** C5.  The distance from a point to itself is 0, at the reference
    point (25.0478, 121.5170) in particular, and the distance from a to
    b is the distance from b to a. *)
Theorem haversine_zero_and_symmetric :
  (forall lat lon, haversine_distance lat lon lat lon = Ok 0) /\
  haversine_distance 25.0478 121.5170 25.0478 121.5170 = Ok 0 /\
  haversine_distance taipei_latitude taipei_longitude
                     taipei_latitude taipei_longitude = Ok 0 /\
  (forall lat1 lon1 lat2 lon2,
     haversine_distance lat1 lon1 lat2 lon2
     = haversine_distance lat2 lon2 lat1 lon1).
Proof.
  assert (Hsame : forall lat lon, haversine_distance lat lon lat lon = Ok 0).
  { intros lat lon.
    rewrite haversine_distance_value, haversine_a_same_point, sqrt_0, asin_0.
    f_equal. ring. }
  split; [ exact Hsame |].
  split; [ apply Hsame |].
  split; [ apply Hsame |].
  intros lat1 lon1 lat2 lon2.
  rewrite !haversine_distance_value, (haversine_a_sym lat1 lon1 lat2 lon2).
  reflexivity.
Qed.

End HaversineFacts.

(** ** Empty collections *)

Module EmptyInputFacts.
Import Spec.

Lemma analyze_empty_frame_raises :
  DistanceAnalyzer.analyze_distance_distribution (Some []) = Raise ValueError.
Proof. reflexivity. Qed.

Lemma calculate_without_coordinates (df : DataFrame.t) :
  DistanceAnalyzer.dropna_coordinates df = [] ->
  DistanceAnalyzer.calculate_distances (Some df) = Ok (Some []).
Proof.
  intros E. unfold DistanceAnalyzer.calculate_distances. rewrite E. reflexivity.
Qed.

Lemma run_analysis_without_coordinates (df : DataFrame.t) :
  DistanceAnalyzer.dropna_coordinates df = [] ->
  DistanceAnalyzer.run_analysis (Some df) = Raise ValueError.
Proof.
  intros E. unfold DistanceAnalyzer.run_analysis.
  rewrite (calculate_without_coordinates df E). reflexivity.
Qed.

(** A non-empty frame is analysed without an exception: the fault is
    that of the empty frame alone. *)
Lemma arg_best_in_range (better : R -> R -> bool) (s : list R)
    (best_i : nat) (best : R) (i : nat) :
  (best_i < i)%nat ->
  (DistanceAnalyzer.arg_best better s best_i best i < i + List.length s)%nat.
Proof.
  revert best_i best i.
  induction s as [| x s IH]; intros best_i best i Hlt; cbn; [ lia |].
  destruct (better x best).
  - specialize (IH i x (S i)). lia.
  - specialize (IH best_i best (S i)). lia.
Qed.

Lemma analyze_nonempty_frame_returns
    (r : DistanceAnalyzer.row_with_distance)
    (df : list DistanceAnalyzer.row_with_distance) :
  exists a,
    DistanceAnalyzer.analyze_distance_distribution (Some (r :: df))
    = Ok (Some a).
Proof.
  unfold DistanceAnalyzer.analyze_distance_distribution.
  cbn [map DistanceAnalyzer.idxmin DistanceAnalyzer.idxmax bind].
  set (ds := map DistanceAnalyzer.distance_to_taipei df).
  assert (Hlen : List.length ds = List.length df) by apply length_map.
  unfold DistanceAnalyzer.loc.
  match goal with
  | |- context [nth_error (r :: df) ?n] =>
      destruct (nth_error (r :: df) n) as [nearest |] eqn:En
  end.
  2:{ apply nth_error_None in En. cbn [List.length] in En.
      match type of En with
      | (_ <= DistanceAnalyzer.arg_best ?b ?s ?bi ?bv ?i)%nat =>
          pose proof (arg_best_in_range b s bi bv i)
      end. lia. }
  cbn [bind].
  match goal with
  | |- context [nth_error (r :: df) ?n] =>
      destruct (nth_error (r :: df) n) as [farthest |] eqn:Ef
  end.
  2:{ apply nth_error_None in Ef. cbn [List.length] in Ef.
      match type of Ef with
      | (_ <= DistanceAnalyzer.arg_best ?b ?s ?bi ?bv ?i)%nat =>
          pose proof (arg_best_in_range b s bi bv i)
      end. lia. }
  cbn [bind]. eexists. reflexivity.
Qed.

Section Report.
Variable int_of_str : string -> option Z.
Variable float_of_str : string -> option float.
Variable str_int : Z -> string.
Variable str_val : AQIMonitor.pyval -> string.
Variable format_fixed : nat -> Q -> string.

(** The report prints when the mean is a number, however few stations
    are above the threshold. *)
Lemma report_with_mean (s : AQIMonitor.summary)
    (high : list AQIMonitor.processed_record) (avg : Q) :
  AQIMonitor.avg_aqi s = Some avg ->
  exists lines,
    AQIMonitor.display_results str_int str_val format_fixed s high = Ok lines.
Proof.
  intros E. unfold AQIMonitor.display_results. rewrite E. cbn [AQIMonitor.format_f bind].
  eexists. reflexivity.
Qed.

Lemma report_without_mean (s : AQIMonitor.summary)
    (high : list AQIMonitor.processed_record) :
  AQIMonitor.avg_aqi s = None ->
  AQIMonitor.display_results str_int str_val format_fixed s high
  = Raise TypeError.
Proof.
  intros E. unfold AQIMonitor.display_results. rewrite E. reflexivity.
Qed.

End Report.

(** C6 on the code.  A frame of high-AQI stations none of which has
    both coordinates: [calculate_distances] returns the empty frame, an
    explicit empty result, and [analyze_distance_distribution] raises
    [ValueError] on it ([idxmin] of an empty series), so [run_analysis]
    raises.  A batch whose records all lack an AQI: no station is above
    the threshold, and the report of [run_monitoring] raises [TypeError]
    where it formats the null mean. *)
Theorem empty_collections_raise :
  DistanceAnalyzer.calculate_distances (Some [reading (DataFrame.Val 60)])
  = Ok (Some []) /\
  DistanceAnalyzer.analyze_distance_distribution (Some []) = Raise ValueError /\
  DistanceAnalyzer.run_analysis (Some [reading (DataFrame.Val 60)])
  = Raise ValueError /\
  (forall int_of_str float_of_str str_int str_val format_fixed now,
     AQIMonitor.process_aqi_data int_of_str float_of_str
       [ [("sitename", AQIMonitor.PStr "A"); ("aqi", AQIMonitor.PStr "")] ]
     = Ok (Some [ AQIMonitor.mk_processed
                    AQIMonitor.PNone (AQIMonitor.PStr "A") AQIMonitor.PNone None
                    AQIMonitor.PNone AQIMonitor.PNone
                    None None None None None None None None
                    AQIMonitor.PNone None None ]) /\
     AQIMonitor.run_monitoring int_of_str float_of_str
       str_int str_val format_fixed now
       (Some [ [("sitename", AQIMonitor.PStr "A"); ("aqi", AQIMonitor.PStr "")] ])
     = Raise TypeError).
Proof.
  split; [ reflexivity |].
  split; [ reflexivity |].
  split; [ apply run_analysis_without_coordinates; reflexivity |].
  intros. split; reflexivity.
Qed.

End EmptyInputFacts.

(** ** More on the normalizer *)

Module NormalizerShape.
Import AQIMonitor Spec.

Section Shape.
Variable int_of_str : string -> option Z.
Variable float_of_str : string -> option float.

Local Abbreviation process_record :=
  (AQIMonitor.process_record int_of_str float_of_str).
Local Abbreviation process_loop :=
  (AQIMonitor.process_loop int_of_str float_of_str).
Local Abbreviation process_aqi_data :=
  (AQIMonitor.process_aqi_data int_of_str float_of_str).
Local Abbreviation kept := (kept_records int_of_str float_of_str).
Local Abbreviation benign := (Spec.benign int_of_str float_of_str).

Lemma bind_raise_inv {A B : Type} (m : result A) (k : A -> result B) (e : exn) :
  bind m k = Raise e ->
  m = Raise e \/ exists a, m = Ok a /\ k a = Raise e.
Proof.
  destruct m as [a | e']; cbn [bind]; intros H.
  - right. exists a. split; [ reflexivity | exact H ].
  - left. inversion H. reflexivity.
Qed.

(** The exception of a record is the exception of one of its entries. *)
Lemma process_record_fault_field (record : raw_record) (e : exn) :
  process_record record = Raise e ->
  int_field int_of_str record "aqi" = Raise e \/
  exists k, In k float_keys /\ float_field float_of_str record k = Raise e.
Proof.
  unfold AQIMonitor.process_record. intros H.
  repeat match goal with
    | H : bind _ _ = Raise _ |- _ =>
        apply bind_raise_inv in H; destruct H as [H | [? [_ H]]]
    | H : int_field _ _ _ = Raise _ |- _ => left; exact H
    | H : float_field _ _ ?k = Raise _ |- _ =>
        right; exists k; split; [ cbn; tauto | exact H ]
    | H : Ok _ = Raise _ |- _ => discriminate H
    end.
Qed.

Lemma string_value_faults (record : raw_record) (k : string) :
  string_typed record ->
  (forall e, int_field int_of_str record k = Raise e -> e = ValueError) /\
  (forall e, float_field float_of_str record k = Raise e -> e = ValueError).
Proof.
  intros Hs. unfold int_field, float_field, record_get, record_get_default.
  destruct (dict_get record k) as [v |] eqn:Eget.
  - destruct (Hs k v Eget) as [Hv | [s Hv]]; subst v; cbn [truthy].
    + split; intros e H; discriminate H.
    + destruct (negb (String.eqb s "")); cbn [py_int py_float bind].
      * split; intros e H.
        -- destruct (int_of_str s); cbn [bind] in H; congruence.
        -- destruct (float_of_str s); cbn [bind] in H; congruence.
      * split; intros e H; discriminate H.
  - cbn [truthy]. split; intros e H; discriminate H.
Qed.

Lemma string_typed_benign (record : raw_record) :
  string_typed record ->
  forall e, process_record record = Raise e -> e = ValueError.
Proof.
  intros Hs e H. apply process_record_fault_field in H.
  destruct H as [H | [k [_ H]]].
  - exact (proj1 (string_value_faults record "aqi" Hs) e H).
  - exact (proj2 (string_value_faults record k Hs) e H).
Qed.

(** On records whose values are all strings or null, as the API sends
    them, [process_aqi_data] raises nothing: the only fault such a record
    can have is a [ValueError], which drops that record alone, and the
    result is the list of the records that coerce, in batch order (null
    for an empty batch). *)
Theorem string_typed_batch_never_raises (raw_data : list raw_record) :
  (forall r, In r raw_data -> string_typed r) ->
  (forall r e, In r raw_data -> process_record r = Raise e -> e = ValueError) /\
  process_aqi_data raw_data
  = match raw_data with
    | [] => Ok None
    | _ => Ok (Some (kept raw_data))
    end.
Proof.
  intros Hs.
  assert (Hfault : forall r e, In r raw_data ->
                     process_record r = Raise e -> e = ValueError)
    by (intros r e Hr; apply string_typed_benign, Hs, Hr).
  split; [ exact Hfault |].
  destruct raw_data as [| first rest]; [ reflexivity |].
  apply NormalizerFacts.process_aqi_data_kept; [ discriminate |].
  intros r Hr e He. rewrite (Hfault r e Hr He). reflexivity.
Qed.

Lemma process_loop_ok_kept (raw_data : list raw_record)
    (processed_data out : list processed_record) :
  process_loop raw_data processed_data = Ok out ->
  out = processed_data ++ kept raw_data.
Proof.
  revert processed_data.
  induction raw_data as [| record rest IH]; intros processed_data H.
  - cbn in H. inversion H. rewrite app_nil_r. reflexivity.
  - cbn [AQIMonitor.process_loop kept_records flat_map] in *.
    destruct (process_record record) as [p | e].
    + apply IH in H. rewrite <- app_assoc in H. exact H.
    + destruct e; try discriminate H; apply IH in H; exact H.
Qed.

Lemma kept_length (raw_data : list raw_record) :
  (List.length (kept raw_data) <= List.length raw_data)%nat.
Proof.
  induction raw_data as [| record rest IH]; [ apply Nat.le_refl |].
  change (kept (record :: rest))
    with (match process_record record with
          | Ok processed => [processed]
          | Raise _ => []
          end ++ kept rest).
  rewrite length_app. cbn [List.length].
  destruct (process_record record); cbn [List.length]; lia.
Qed.

Lemma kept_origin (raw_data : list raw_record) (p : processed_record) :
  In p (kept raw_data) ->
  exists r, In r raw_data /\ process_record r = Ok p.
Proof.
  unfold kept_records. rewrite in_flat_map. intros [r [Hr Hp]].
  exists r. split; [ exact Hr |].
  destruct (process_record r) as [p' | e]; [| destruct Hp ].
  destruct Hp as [Hp | []]. subst p'. reflexivity.
Qed.

Lemma process_record_passthrough (record : raw_record) (p : processed_record) :
  process_record record = Ok p ->
  site_id p = record_get record "siteid" /\
  site_name p = record_get record "sitename" /\
  county p = record_get record "county" /\
  pollutant p = record_get record "pollutant" /\
  status p = record_get record "status" /\
  data_time p = record_get record "datacreationdate".
Proof.
  unfold AQIMonitor.process_record. intros H.
  repeat match goal with
    | H : bind ?m _ = Ok _ |- _ =>
        destruct m; cbn [bind] in H; [| discriminate H ]
    end.
  inversion H. cbn. repeat split.
Qed.

(** Whenever [process_aqi_data] returns a list, that list is the
    records of the batch that coerce, in batch order: it is no longer
    than the batch, every record in it comes from a raw record, and its
    text fields are that record's, unchanged. *)
Theorem processed_output_is_kept_records (raw_data : list raw_record)
    (out : list processed_record) :
  process_aqi_data raw_data = Ok (Some out) ->
  out = kept raw_data /\
  (List.length out <= List.length raw_data)%nat /\
  (forall p, In p out ->
     exists r, In r raw_data /\ process_record r = Ok p /\
       site_id p = record_get r "siteid" /\
       site_name p = record_get r "sitename" /\
       county p = record_get r "county" /\
       pollutant p = record_get r "pollutant" /\
       status p = record_get r "status" /\
       data_time p = record_get r "datacreationdate").
Proof.
  intros H. unfold AQIMonitor.process_aqi_data in H.
  destruct raw_data as [| first rest]; [ discriminate H |].
  destruct (process_loop (first :: rest) []) as [l |] eqn:El;
    cbn [bind] in H; [| discriminate H ].
  inversion H; subst l; clear H.
  apply process_loop_ok_kept in El. cbn [app] in El. subst out.
  split; [ reflexivity |]. split; [ apply kept_length |].
  intros p Hp. destruct (kept_origin _ p Hp) as [r [Hr Er]].
  exists r. split; [ exact Hr |]. split; [ exact Er |].
  apply process_record_passthrough, Er.
Qed.

End Shape.

Lemma string_typed_batch_never_raises_witness :
  process_aqi_data decimal_int decimal_float
    [ [("sitename", PStr "A"); ("aqi", PStr "51")];
      [("sitename", PStr "B"); ("aqi", PStr "N/A")] ]
  = Ok (Some (kept_records decimal_int decimal_float
                [ [("sitename", PStr "A"); ("aqi", PStr "51")];
                  [("sitename", PStr "B"); ("aqi", PStr "N/A")] ])).
Proof.
  refine (proj2 (string_typed_batch_never_raises decimal_int decimal_float
                   [ [("sitename", PStr "A"); ("aqi", PStr "51")];
                     [("sitename", PStr "B"); ("aqi", PStr "N/A")] ] _)).
  intros r [Hr | [Hr | []]]; subst r; intros k v Hget; cbn in Hget;
    repeat match type of Hget with
      | (if ?c then _ else _) = _ => destruct c
      end; inversion Hget; right; eexists; reflexivity.
Defined.

Lemma processed_output_is_kept_records_witness :
  [processed_with_aqi (Some 51)]
  = kept_records decimal_int decimal_float [ [("aqi", PStr "51")] ].
Proof.
  exact (proj1 (processed_output_is_kept_records decimal_int decimal_float
                  [ [("aqi", PStr "51")] ] [processed_with_aqi (Some 51)]
                  eq_refl)).
Defined.

End NormalizerShape.

(** ** Extrema and means of integer lists *)

Module ExtremaFacts.

Lemma fold_max_bounds (l : list Z) (x : Z) :
  x <= fold_left Z.max l x /\
  (forall y, In y l -> y <= fold_left Z.max l x) /\
  (fold_left Z.max l x = x \/ In (fold_left Z.max l x) l).
Proof.
  revert x. induction l as [| a l IH]; intros x; cbn [fold_left].
  - split; [ lia |]. split; [ intros y [] | left; reflexivity ].
  - destruct (IH (Z.max x a)) as [H1 [H2 H3]].
    split; [ lia |]. split.
    + intros y [Hy | Hy]; [ subst y; lia | apply H2, Hy ].
    + destruct H3 as [H3 | H3]; [| right; right; exact H3 ].
      rewrite H3. destruct (Z.max_spec x a) as [[_ E] | [_ E]]; rewrite E.
      * right. left. reflexivity.
      * left. reflexivity.
Qed.

Lemma fold_min_bounds (l : list Z) (x : Z) :
  fold_left Z.min l x <= x /\
  (forall y, In y l -> fold_left Z.min l x <= y) /\
  (fold_left Z.min l x = x \/ In (fold_left Z.min l x) l).
Proof.
  revert x. induction l as [| a l IH]; intros x; cbn [fold_left].
  - split; [ lia |]. split; [ intros y [] | left; reflexivity ].
  - destruct (IH (Z.min x a)) as [H1 [H2 H3]].
    split; [ lia |]. split.
    + intros y [Hy | Hy]; [ subst y; lia | apply H2, Hy ].
    + destruct H3 as [H3 | H3]; [| right; right; exact H3 ].
      rewrite H3. destruct (Z.min_spec x a) as [[_ E] | [_ E]]; rewrite E.
      * left. reflexivity.
      * right. left. reflexivity.
Qed.

Lemma max_of_list (x : Z) (l : list Z) :
  In (fold_left Z.max l x) (x :: l) /\
  forall y, In y (x :: l) -> y <= fold_left Z.max l x.
Proof.
  destruct (fold_max_bounds l x) as [H1 [H2 H3]]. split.
  - destruct H3 as [H3 | H3]; [ left; symmetry; exact H3 | right; exact H3 ].
  - intros y [Hy | Hy]; [ subst y; exact H1 | apply H2, Hy ].
Qed.

Lemma min_of_list (x : Z) (l : list Z) :
  In (fold_left Z.min l x) (x :: l) /\
  forall y, In y (x :: l) -> fold_left Z.min l x <= y.
Proof.
  destruct (fold_min_bounds l x) as [H1 [H2 H3]]. split.
  - destruct H3 as [H3 | H3]; [ left; symmetry; exact H3 | right; exact H3 ].
  - intros y [Hy | Hy]; [ subst y; exact H1 | apply H2, Hy ].
Qed.

Lemma sum_between (l : list Z) (lo hi : Z) :
  (forall v, In v l -> lo <= v <= hi) ->
  lo * Z.of_nat (List.length l) <= sum_Z l <= hi * Z.of_nat (List.length l).
Proof.
  induction l as [| a l IH]; intros H.
  - cbn. lia.
  - cbn [sum_Z fold_right List.length]. fold (sum_Z l).
    pose proof (H a (or_introl eq_refl)).
    assert (Hl : forall v, In v l -> lo <= v <= hi)
      by (intros v Hv; apply H; right; exact Hv).
    specialize (IH Hl). lia.
Qed.

(** The exact mean of integers between [lo] and [hi] lies between them. *)
Lemma mean_between (s n lo hi : Z) :
  0 < n -> lo * n <= s <= hi * n ->
  (inject_Z lo <= Qred (inject_Z s / inject_Z n) <= inject_Z hi)%Q.
Proof.
  intros Hn [Hlo Hhi]. rewrite Qred_correct.
  assert (Hpos : (0 < inject_Z n)%Q)
    by (change 0%Q with (inject_Z 0); rewrite <- Zlt_Qlt; exact Hn).
  split.
  - apply Qle_shift_div_l; [ exact Hpos |].
    rewrite <- inject_Z_mult, <- Zle_Qle. exact Hlo.
  - apply Qle_shift_div_r; [ exact Hpos |].
    rewrite <- inject_Z_mult, <- Zle_Qle. exact Hhi.
Qed.

End ExtremaFacts.

(** ** The summary of the monitor *)

Module MonitorFacts.
Import AQIMonitor Spec.

Lemma aqi_values_length (processed_data : list processed_record) :
  (List.length (aqi_values_of processed_data)
   <= List.length processed_data)%nat.
Proof.
  induction processed_data as [| p rest IH]; [ apply Nat.le_refl |].
  change (aqi_values_of (p :: rest))
    with (match aqi p with Some v => [v] | None => [] end
          ++ aqi_values_of rest).
  rewrite length_app. cbn [List.length].
  destruct (aqi p); cbn [List.length]; lia.
Qed.

Lemma high_stations_have_values (processed_data : list processed_record)
    (threshold : Q) :
  (List.length (identify_high_aqi_stations processed_data threshold)
   <= List.length (aqi_values_of processed_data))%nat.
Proof.
  rewrite FilterFacts.identify_high_unfold.
  rewrite (Permutation_length (stable_sort_perm key_desc _)).
  induction processed_data as [| p rest IH]; [ apply Nat.le_refl |].
  change (aqi_values_of (p :: rest))
    with (match aqi p with Some v => [v] | None => [] end
          ++ aqi_values_of rest).
  rewrite length_app. cbn [filter]. unfold is_high at 1.
  destruct (aqi p) as [v |]; cbn [List.length].
  - destruct (negb (v =? 0) && Qlt_bool threshold (inject_Z v));
      cbn [List.length]; lia.
  - exact IH.
Qed.

(** What [generate_summary] returns on a non-empty list. *)
Lemma generate_summary_value (now : string)
    (processed_data high : list processed_record) :
  processed_data <> [] ->
  generate_summary now processed_data high
  = Ok (Some
      {| total_stations := List.length processed_data;
         stations_with_aqi_data := List.length (aqi_values_of processed_data);
         high_aqi_stations := List.length high;
         percentage_high_aqi :=
           Qred (inject_Z (Z.of_nat (List.length high))
                 / inject_Z (Z.of_nat (List.length processed_data))
                 * inject_Z 100);
         max_aqi := match aqi_values_of processed_data with
                    | [] => None
                    | x :: l => Some (fold_left Z.max l x)
                    end;
         min_aqi := match aqi_values_of processed_data with
                    | [] => None
                    | x :: l => Some (fold_left Z.min l x)
                    end;
         avg_aqi := match aqi_values_of processed_data with
                    | [] => None
                    | x :: l =>
                        Some (Qred (inject_Z (sum_Z (x :: l))
                                    / inject_Z (Z.of_nat (List.length (x :: l)))))
                    end;
         data_timestamp := now |}).
Proof.
  intros Hne. destruct processed_data as [| p rest]; [ congruence |].
  unfold generate_summary.
  set (vals := aqi_values_of (p :: rest)).
  cbn [List.length Nat.ltb Nat.leb]. unfold py_truediv.
  destruct (Z.of_nat (S (List.length rest)) =? 0) eqn:E;
    [ apply Z.eqb_eq in E; lia |].
  cbn [bind]. destruct vals as [| x l]; cbn [if_values py_max py_min bind].
  - reflexivity.
  - destruct (Z.of_nat (List.length (x :: l)) =? 0) eqn:E2;
      [ apply Z.eqb_eq in E2; cbn [List.length] in E2; lia |].
    cbn [bind]. reflexivity.
Qed.

(** On a non-empty list whose AQI values are integers of magnitude at
    most 2^53, which binary64 holds exactly, [generate_summary] raises
    nothing (no division by zero, no [max] of an empty list) and its
    figures are consistent: the stations with data are no more than the
    stations; max, min and mean are null exactly when no station has an
    AQI; otherwise max and min are AQI values of the list that bound
    every AQI value, and the mean lies between them. *)
Theorem generate_summary_statistics (now : string)
    (processed_data high : list processed_record) :
  processed_data <> [] ->
  (forall v, In v (aqi_values_of processed_data) -> - 2 ^ 53 <= v <= 2 ^ 53) ->
  exists s,
    generate_summary now processed_data high = Ok (Some s) /\
    total_stations s = List.length processed_data /\
    stations_with_aqi_data s = List.length (aqi_values_of processed_data) /\
    (stations_with_aqi_data s <= total_stations s)%nat /\
    (aqi_values_of processed_data = [] ->
     max_aqi s = None /\ min_aqi s = None /\ avg_aqi s = None) /\
    (aqi_values_of processed_data <> [] ->
     exists mx mn avg,
       max_aqi s = Some mx /\ min_aqi s = Some mn /\ avg_aqi s = Some avg /\
       In mx (aqi_values_of processed_data) /\
       In mn (aqi_values_of processed_data) /\
       (forall v, In v (aqi_values_of processed_data) -> mn <= v <= mx) /\
       (inject_Z mn <= avg <= inject_Z mx)%Q).
Proof.
  intros Hne _. eexists. split; [ apply generate_summary_value, Hne |].
  cbn [total_stations stations_with_aqi_data max_aqi min_aqi avg_aqi].
  split; [ reflexivity |]. split; [ reflexivity |].
  split; [ apply aqi_values_length |].
  destruct (aqi_values_of processed_data) as [| x l].
  - split; [ intros _; repeat split | intros H; congruence ].
  - split; [ discriminate |]. intros _.
    destruct (ExtremaFacts.max_of_list x l) as [Hmx1 Hmx2].
    destruct (ExtremaFacts.min_of_list x l) as [Hmn1 Hmn2].
    do 3 eexists. split; [ reflexivity |]. split; [ reflexivity |].
    split; [ reflexivity |]. split; [ exact Hmx1 |]. split; [ exact Hmn1 |].
    assert (Hall : forall v, In v (x :: l) ->
                     fold_left Z.min l x <= v <= fold_left Z.max l x)
      by (intros v Hv; split; [ apply Hmn2, Hv | apply Hmx2, Hv ]).
    split; [ exact Hall |].
    apply ExtremaFacts.mean_between.
    + cbn [List.length]. lia.
    + apply ExtremaFacts.sum_between, Hall.
Qed.

Lemma generate_summary_statistics_witness :
  exists s,
    generate_summary "" (map processed_with_aqi [Some 40; None; Some 75]) []
    = Ok (Some s) /\
    total_stations s = 3%nat.
Proof.
  destruct (generate_summary_statistics ""
              (map processed_with_aqi [Some 40; None; Some 75]) []
              ltac:(discriminate)
              ltac:(intros v [Hv | [Hv | []]]; subst v; split; discriminate))
    as [s [Hs [Ht _]]].
  exists s. split; [ exact Hs | exact Ht ].
Defined.

(** On a non-empty list whose AQI values are integers of magnitude at
    most 2^53, with the stations [identify_high_aqi_stations] picks,
    [generate_summary] raises nothing, the count of high stations is at
    most the count of stations with data, which is at most the count of
    stations, and the percentage is between 0 and 100. *)
Theorem high_percentage_bounds (now : string)
    (processed_data : list processed_record) (threshold : Q) :
  processed_data <> [] ->
  (forall v, In v (aqi_values_of processed_data) -> - 2 ^ 53 <= v <= 2 ^ 53) ->
  exists s,
    generate_summary now processed_data
      (identify_high_aqi_stations processed_data threshold) = Ok (Some s) /\
    (high_aqi_stations s <= stations_with_aqi_data s)%nat /\
    (stations_with_aqi_data s <= total_stations s)%nat /\
    (0 <= percentage_high_aqi s <= inject_Z 100)%Q.
Proof.
  intros Hne _. eexists. split; [ apply generate_summary_value, Hne |].
  cbn [total_stations stations_with_aqi_data high_aqi_stations
       percentage_high_aqi].
  pose proof (high_stations_have_values processed_data threshold) as Hh.
  pose proof (aqi_values_length processed_data) as Hv.
  split; [ exact Hh |]. split; [ exact Hv |].
  rewrite Qred_correct.
  set (h := List.length (identify_high_aqi_stations processed_data threshold))
    in *.
  set (n := List.length processed_data) in *.
  assert (Hn : (0 < n)%nat)
    by (subst n; destruct processed_data; [ congruence | cbn; lia ]).
  assert (Hpos : (0 < inject_Z (Z.of_nat n))%Q)
    by (change 0%Q with (inject_Z 0); rewrite <- Zlt_Qlt; lia).
  assert (Hratio : (0 <= inject_Z (Z.of_nat h) / inject_Z (Z.of_nat n) <= 1)%Q).
  { split.
    - apply Qle_shift_div_l; [ exact Hpos |].
      rewrite Qmult_0_l. change 0%Q with (inject_Z 0).
      rewrite <- Zle_Qle. lia.
    - apply Qle_shift_div_r; [ exact Hpos |].
      rewrite Qmult_1_l, <- Zle_Qle. lia. }
  destruct Hratio as [H0 H1]. split.
  - apply Qmult_le_0_compat; [ exact H0 | discriminate ].
  - rewrite <- (Qmult_1_l (inject_Z 100)) at 2.
    apply Qmult_le_compat_r; [ exact H1 | discriminate ].
Qed.

Lemma high_percentage_bounds_witness :
  exists s,
    generate_summary ""
      (map processed_with_aqi [Some 40; None; Some 75])
      (identify_high_aqi_stations
         (map processed_with_aqi [Some 40; None; Some 75]) default_threshold)
    = Ok (Some s) /\
    (0 <= percentage_high_aqi s <= inject_Z 100)%Q.
Proof.
  destruct (high_percentage_bounds ""
              (map processed_with_aqi [Some 40; None; Some 75])
              default_threshold ltac:(discriminate)
              ltac:(intros v [Hv | [Hv | []]]; subst v; split; discriminate))
    as [s [Hs [_ [_ Hp]]]].
  exists s. split; [ exact Hs | exact Hp ].
Defined.

End MonitorFacts.


(** ** Zero readings *)

Module ZeroFacts.
Import AQIMonitor Spec.

Section Zero.
Variable int_of_str : string -> option Z.
Variable float_of_str : string -> option float.

Lemma numeric_zero_falsy (v : pyval) : numeric_zero v -> truthy v = false.
Proof. intros [H | [H | [H | H]]]; subst v; reflexivity. Qed.

(** A numeric entry that is a zero number (0, 0.0, -0.0, False) is read
    as missing, in the aqi as in every float field, because the entry is
    tested for truth before it is converted; the string "0" is kept as
    the number 0.  So a record whose aqi is the JSON number 0 comes out
    with a null AQI, and one whose aqi is the string "0" with AQI 0. *)
Theorem zero_number_reads_as_missing (record : raw_record) (k : string)
    (v : pyval) :
  dict_get record k = Some v ->
  (numeric_zero v ->
   int_field int_of_str record k = Ok None /\
   float_field float_of_str record k = Ok None) /\
  (forall s z, v = PStr s -> s <> "" -> int_of_str s = Some z ->
     int_field int_of_str record k = Ok (Some z)) /\
  (k = "aqi" -> numeric_zero v ->
   Forall (coerces float_of_str record) float_keys ->
   exists p, process_record int_of_str float_of_str record = Ok p /\
             aqi p = None).
Proof.
  intros Hget.
  assert (Hfalsy : numeric_zero v -> truthy (record_get record k) = false).
  { intros Hz. unfold record_get. rewrite Hget. apply numeric_zero_falsy, Hz. }
  split; [| split ].
  - intros Hz. unfold int_field, float_field. rewrite (Hfalsy Hz).
    split; reflexivity.
  - intros s z Hv Hs Hparse. subst v.
    unfold int_field, record_get, record_get_default. rewrite Hget.
    cbn [truthy]. destruct (String.eqb_spec s ""); [ contradiction |].
    cbn [negb py_int]. rewrite Hparse. reflexivity.
  - intros Hk Hz Hfloats. subst k.
    apply NormalizerFacts.falsy_aqi_record_coerces; [ exact (Hfalsy Hz) | exact Hfloats ].
Qed.

End Zero.

Lemma zero_number_reads_as_missing_witness :
  int_field decimal_int [("aqi", PInt 0)] "aqi" = Ok None /\
  float_field decimal_float [("aqi", PInt 0)] "aqi" = Ok None.
Proof.
  refine (proj1 (zero_number_reads_as_missing decimal_int decimal_float
                   [("aqi", PInt 0)] "aqi" (PInt 0) eq_refl) _).
  left. reflexivity.
Defined.

End ZeroFacts.

(** ** The distance frame *)

Module DistanceFacts.
Import DataFrame DistanceAnalyzer Spec.
Local Open Scope R_scope.

(** The position [arg_best] returns holds a value that is best among
    all: [le] is the order [better] decides strictly. *)
Lemma arg_best_spec (better : R -> R -> bool) (le : R -> R -> Prop) :
  (forall x, le x x) ->
  (forall x y z, le x y -> le y z -> le x z) ->
  (forall x best, better x best = true -> le x best) ->
  (forall x best, better x best = false -> le best x) ->
  forall (s pre : list R) (best_i : nat) (best : R),
    nth_error (pre ++ s) best_i = Some best ->
    (forall x, In x pre -> le best x) ->
    exists m,
      nth_error (pre ++ s)
                (arg_best better s best_i best (List.length pre)) = Some m /\
      forall x, In x (pre ++ s) -> le m x.
Proof.
  intros Hrefl Htrans Hstrict Hweak s.
  induction s as [| x s IH]; intros pre best_i best Hnth Hpre.
  - cbn [arg_best]. exists best. split; [ exact Hnth |].
    rewrite app_nil_r. exact Hpre.
  - cbn [arg_best].
    assert (Eapp : pre ++ x :: s = (pre ++ [x]) ++ s)
      by (rewrite <- app_assoc; reflexivity).
    assert (Elen : S (List.length pre) = List.length (pre ++ [x]))
      by (rewrite length_app; cbn; lia).
    rewrite Eapp, Elen.
    destruct (better x best) eqn:Eb.
    + apply IH.
      * rewrite <- Eapp. rewrite nth_error_app2 by lia.
        rewrite Nat.sub_diag. reflexivity.
      * intros y Hy. apply in_app_or in Hy. destruct Hy as [Hy | [Hy | []]].
        -- eapply Htrans; [ apply Hstrict, Eb | apply Hpre, Hy ].
        -- subst y. apply Hrefl.
    + apply IH.
      * rewrite <- Eapp. exact Hnth.
      * intros y Hy. apply in_app_or in Hy. destruct Hy as [Hy | [Hy | []]].
        -- apply Hpre, Hy.
        -- subst y. apply Hweak, Eb.
Qed.

Lemma Rltb_true (x y : R) : Rltb x y = true -> x <= y.
Proof. unfold Rltb. destruct (Rlt_dec x y); [ lra | discriminate ]. Qed.

Lemma Rltb_false (x y : R) : Rltb x y = false -> y <= x.
Proof. unfold Rltb. destruct (Rlt_dec x y); [ discriminate | lra ]. Qed.

Lemma idxmin_spec (x : R) (s : list R) :
  exists j m,
    idxmin (x :: s) = Ok j /\ nth_error (x :: s) j = Some m /\
    forall y, In y (x :: s) -> m <= y.
Proof.
  destruct (arg_best_spec Rltb Rle Rle_refl Rle_trans Rltb_true Rltb_false
              s [x] 0%nat x eq_refl) as [m [Hm Hall]].
  - intros y [Hy | []]. subst y. apply Rle_refl.
  - exists (arg_best Rltb s 0%nat x 1%nat), m.
    split; [ reflexivity |]. split; [ exact Hm | exact Hall ].
Qed.

Lemma idxmax_spec (x : R) (s : list R) :
  exists j m,
    idxmax (x :: s) = Ok j /\ nth_error (x :: s) j = Some m /\
    forall y, In y (x :: s) -> y <= m.
Proof.
  destruct (arg_best_spec (fun a b => Rltb b a) (fun a b => b <= a)
              Rle_refl (fun a b c H1 H2 => Rle_trans _ _ _ H2 H1)
              (fun a b H => Rltb_true b a H) (fun a b H => Rltb_false b a H)
              s [x] 0%nat x eq_refl) as [m [Hm Hall]].
  - intros y [Hy | []]. subst y. apply Rle_refl.
  - exists (arg_best (fun a b => Rltb b a) s 0%nat x 1%nat), m.
    split; [ reflexivity |]. split; [ exact Hm | exact Hall ].
Qed.

Lemma fold_Rmin_bounds (l : list R) (x : R) :
  fold_left Rmin l x <= x /\
  (forall y, In y l -> fold_left Rmin l x <= y) /\
  In (fold_left Rmin l x) (x :: l).
Proof.
  revert x. induction l as [| a l IH]; intros x; cbn [fold_left].
  - split; [ lra |]. split; [ intros y [] | left; reflexivity ].
  - destruct (IH (Rmin x a)) as [H1 [H2 H3]].
    pose proof (Rmin_l x a). pose proof (Rmin_r x a).
    split; [ lra |]. split.
    + intros y [Hy | Hy]; [ subst y; lra | apply H2, Hy ].
    + destruct H3 as [H3 | H3]; [| right; right; exact H3 ].
      rewrite <- H3. unfold Rmin. destruct (Rle_dec x a).
      * left. reflexivity.
      * right. left. reflexivity.
Qed.

Lemma fold_Rmax_bounds (l : list R) (x : R) :
  x <= fold_left Rmax l x /\
  (forall y, In y l -> y <= fold_left Rmax l x) /\
  In (fold_left Rmax l x) (x :: l).
Proof.
  revert x. induction l as [| a l IH]; intros x; cbn [fold_left].
  - split; [ lra |]. split; [ intros y [] | left; reflexivity ].
  - destruct (IH (Rmax x a)) as [H1 [H2 H3]].
    pose proof (Rmax_l x a). pose proof (Rmax_r x a).
    split; [ lra |]. split.
    + intros y [Hy | Hy]; [ subst y; lra | apply H2, Hy ].
    + destruct H3 as [H3 | H3]; [| right; right; exact H3 ].
      rewrite <- H3. unfold Rmax. destruct (Rle_dec x a).
      * right. left. reflexivity.
      * left. reflexivity.
Qed.

Lemma loc_of_position (df : list row_with_distance) (j : nat) (m : R) :
  nth_error (map distance_to_taipei df) j = Some m ->
  exists row, loc df j = Ok row /\ In row df /\ distance_to_taipei row = m.
Proof.
  rewrite nth_error_map. unfold loc.
  destruct (nth_error df j) as [row |] eqn:E; cbn; intros H; [| discriminate H ].
  inversion H. exists row. split; [ reflexivity |].
  split; [ eapply nth_error_In; exact E | reflexivity ].
Qed.

(** On a frame with at least one row [analyze_distance_distribution]
    returns an analysis whose nearest station is a row of the frame with
    the least distance and whose farthest station is a row with the
    greatest distance; [min_distance] and [max_distance] are those two
    distances, and [total_stations] is the number of rows. *)
Theorem analysis_extremes (r : row_with_distance)
    (df : list row_with_distance) :
  exists a,
    analyze_distance_distribution (Some (r :: df)) = Ok (Some a) /\
    total_stations a = S (List.length df) /\
    In (nearest_station a) (r :: df) /\
    In (farthest_station a) (r :: df) /\
    (forall x, In x (r :: df) ->
       distance_to_taipei (nearest_station a) <= distance_to_taipei x
       /\ distance_to_taipei x <= distance_to_taipei (farthest_station a)) /\
    min_distance a = Val (distance_to_taipei (nearest_station a)) /\
    max_distance a = Val (distance_to_taipei (farthest_station a)).
Proof.
  unfold analyze_distance_distribution.
  set (ds := map distance_to_taipei (r :: df)).
  assert (Eds : ds = distance_to_taipei r :: map distance_to_taipei df)
    by reflexivity.
  destruct (idxmin_spec (distance_to_taipei r) (map distance_to_taipei df))
    as [j [m [Hj [Hnth Hmin]]]].
  destruct (idxmax_spec (distance_to_taipei r) (map distance_to_taipei df))
    as [k [M [Hk [Hnth' Hmax]]]].
  rewrite <- Eds in Hj, Hk, Hnth, Hnth', Hmin, Hmax.
  destruct (loc_of_position (r :: df) j m Hnth) as [near [Hnear [Hin Hdn]]].
  destruct (loc_of_position (r :: df) k M Hnth') as [far [Hfar [Hin' Hdf]]].
  rewrite Hj. cbn [bind]. rewrite Hnear. cbn [bind].
  rewrite Hk. cbn [bind]. rewrite Hfar. cbn [bind].
  eexists. split; [ reflexivity |].
  cbn [total_stations nearest_station farthest_station min_distance
       max_distance].
  split; [ reflexivity |]. split; [ exact Hin |]. split; [ exact Hin' |].
  split.
  { intros x Hx. rewrite Hdn, Hdf.
    assert (Hxd : In (distance_to_taipei x) ds)
      by (apply in_map; exact Hx).
    split; [ apply Hmin, Hxd | apply Hmax, Hxd ]. }
  assert (Hm_in : In m ds) by (eapply nth_error_In; exact Hnth).
  assert (HM_in : In M ds) by (eapply nth_error_In; exact Hnth').
  rewrite Eds in *. cbn [series_min series_max].
  destruct (fold_Rmin_bounds (map distance_to_taipei df) (distance_to_taipei r))
    as [H1 [H2 H3]].
  destruct (fold_Rmax_bounds (map distance_to_taipei df) (distance_to_taipei r))
    as [H4 [H5 H6]].
  split; f_equal; rewrite ?Hdn, ?Hdf; apply Rle_antisym.
  - destruct Hm_in as [E | Hm_in]; [ rewrite <- E; exact H1 | apply H2, Hm_in ].
  - apply Hmin, H3.
  - apply Hmax, H6.
  - destruct HM_in as [E | HM_in]; [ rewrite <- E; exact H4 | apply H5, HM_in ].
Qed.

End DistanceFacts.


(** ** The figures of the map script's summary *)

Module SummaryInvariants.
Import DataFrame AQIMapVisualizer Spec.

Lemma Qtrunc_between (q : Q) (lo hi : Z) :
  (inject_Z lo <= q <= inject_Z hi)%Q -> lo <= Qtrunc q <= hi.
Proof.
  destruct q as [n d]. unfold Qle, Qtrunc. cbn [Qnum Qden inject_Z].
  intros [Hlo Hhi]. split.
  - apply Z.quot_le_lower_bound; lia.
  - apply Z.quot_le_upper_bound; lia.
Qed.

Lemma valid_and_missing (df : DataFrame.t) :
  (List.length (valid_aqi df) + missing_count df = List.length df)%nat.
Proof.
  unfold valid_aqi, missing_count.
  induction df as [| r df IH]; [ reflexivity |].
  cbn [filter]. unfold aqi_notna at 1, aqi_isna at 1, isna.
  destruct (aqi r) as [| v] eqn:Er; cbn [negb flat_map].
  - cbn [List.length]. lia.
  - rewrite Er. cbn [app List.length]. lia.
Qed.

Lemma median_between (x : Z) (l : list Z) (lo hi : Z) :
  (forall v, In v (x :: l) -> lo <= v <= hi) ->
  exists q, series_median (x :: l) = Val q /\
            (inject_Z lo <= q <= inject_Z hi)%Q.
Proof.
  intros Hall. unfold series_median.
  set (sorted := stable_sort Z.leb (x :: l)).
  assert (Hperm : Permutation sorted (x :: l)) by apply stable_sort_perm.
  assert (Hlen : List.length sorted = S (List.length l))
    by (rewrite (Permutation_length Hperm); reflexivity).
  assert (Hnth : forall i, (i < List.length sorted)%nat ->
                   lo <= nth i sorted 0 <= hi).
  { intros i Hi. apply Hall. eapply Permutation_in; [ exact Hperm |].
    apply nth_In, Hi. }
  assert (Hhalf : (List.length sorted / 2 < List.length sorted)%nat)
    by (apply Nat.div_lt; lia).
  pose proof (Hnth _ Hhalf) as Hhi.
  destruct (Nat.even (List.length sorted)).
  - assert (Hprev : (List.length sorted / 2 - 1 < List.length sorted)%nat)
      by lia.
    pose proof (Hnth _ Hprev) as Hlo.
    eexists. split; [ reflexivity |].
    apply ExtremaFacts.mean_between; lia.
  - eexists. split; [ reflexivity |].
    rewrite <- !Zle_Qle. exact Hhi.
Qed.

(** For every frame whose AQI values are integers of magnitude at most
    2^52, on which the binary64 median of pandas is exact,
    [create_statistics_summary] returns a summary and raises nothing.
    Its station counts add up: stations with data plus stations missing
    data is the total.  When at least one reading has an AQI, max and
    min are AQI values of the frame that bound every AQI value, the
    median lies between min and max and the mean is a number; when none
    has, the four figures are null. *)
Theorem statistics_summary_invariants (now : string) (df : DataFrame.t) :
  (forall v, In v (valid_aqi df) -> - 2 ^ 52 <= v <= 2 ^ 52) ->
  exists s,
    create_statistics_summary now (Some df) = Ok (Some s) /\
    total_stations s = List.length df /\
    (stations_with_data s + stations_missing_data s = total_stations s)%nat /\
    (valid_aqi df = [] ->
     statistics s = mk_statistics None None None None) /\
    (valid_aqi df <> [] ->
     exists mx mn avg med,
       statistics s = mk_statistics (Some mx) (Some mn) (Some (Val avg)) (Some med) /\
       In mx (valid_aqi df) /\ In mn (valid_aqi df) /\
       (forall v, In v (valid_aqi df) -> mn <= v <= mx) /\
       mn <= med <= mx).
Proof.
  intros _. unfold create_statistics_summary, if_nonempty.
  pose proof (valid_and_missing df) as Hcount.
  destruct (valid_aqi df) as [| x l] eqn:E.
  - cbn. eexists. split; [ reflexivity |]. cbn.
    split; [ reflexivity |]. split; [ cbn in Hcount; exact Hcount |].
    split; [ reflexivity | intros H; congruence ].
  - destruct (ExtremaFacts.max_of_list x l) as [Hmx1 Hmx2].
    destruct (ExtremaFacts.min_of_list x l) as [Hmn1 Hmn2].
    assert (Hall : forall v, In v (x :: l) ->
                     fold_left Z.min l x <= v <= fold_left Z.max l x)
      by (intros v Hv; split; [ apply Hmn2, Hv | apply Hmx2, Hv ]).
    destruct (median_between x l _ _ Hall) as [q [Hq Hqb]].
    rewrite Hq.
    cbn [List.length Nat.ltb Nat.leb series_max series_min series_mean
         int_of_cell int_of_float_cell round1_cell bind].
    eexists. split; [ reflexivity |].
    cbn [total_stations stations_with_data stations_missing_data statistics].
    split; [ reflexivity |]. split; [ exact Hcount |].
    split; [ discriminate |]. intros _.
    do 4 eexists. split; [ reflexivity |].
    split; [ exact Hmx1 |]. split; [ exact Hmn1 |]. split; [ exact Hall |].
    apply Qtrunc_between, Hqb.
Qed.

(** A frame of three readings, one without an AQI. *)
Lemma statistics_summary_invariants_witness :
  exists s,
    create_statistics_summary ""
      (Some [reading (Val 40); reading NaN; reading (Val 75)]) = Ok (Some s) /\
    total_stations s = 3%nat /\
    (stations_with_data s + stations_missing_data s = total_stations s)%nat.
Proof.
  destruct (statistics_summary_invariants ""
              [reading (Val 40); reading NaN; reading (Val 75)]
              ltac:(intros v [Hv | [Hv | []]]; subst v; split; discriminate))
    as [s [Hs [Ht [Hc _]]]].
  exists s. split; [ exact Hs |]. split; [ exact Ht | exact Hc ].
Defined.

End SummaryInvariants.

(** ** The monitor's high stations on the map's bands *)

Module HighStationBands.
Import AQIMonitor Spec.

Lemma high_station_value (processed_data : list processed_record)
    (threshold : Q) (s : processed_record) :
  In s (identify_high_aqi_stations processed_data threshold) <->
  In s processed_data /\ is_high threshold s = true.
Proof.
  rewrite FilterFacts.identify_high_unfold. rewrite <- filter_In. split.
  - apply Permutation_in, stable_sort_perm.
  - apply Permutation_in, Permutation_sym, stable_sort_perm.
Qed.

Lemma above_fifty_not_good (v : Z) :
  50 < v ->
  AQIMapVisualizer.get_aqi_category (Some v) <> Ok "良好 (0-50)" /\
  AQIMapVisualizer.get_aqi_category (Some v) <> Ok "無資料" /\
  AQIMapVisualizer.get_aqi_color (Some v) <> Ok "#00E400".
Proof.
  intros Hv. cbn [AQIMapVisualizer.get_aqi_category AQIMapVisualizer.get_aqi_color].
  destruct (Z_le_gt_dec v 500) as [Hle | Hgt].
  - rewrite !ClassifierFacts.scan_in_band by lia. unfold band_of.
    repeat match goal with
      | |- context [?a <=? ?b] => destruct (Z.leb_spec a b); try lia
      end; repeat split; discriminate.
  - rewrite !ClassifierFacts.scan_out_of_band by lia.
    repeat split; discriminate.
Qed.

(** The stations the monitor reports at its default threshold of 50 are
    the readings the map does not show as good: every one of them has an
    AQI above 50, which the classifier never labels good or missing and
    never colours green; and a reading in the good band, or without an
    AQI, is never among them. *)
Theorem high_stations_are_not_good (processed_data : list processed_record)
    (s : processed_record) :
  In s processed_data ->
  (In s (identify_high_aqi_stations processed_data default_threshold) ->
   exists v,
     aqi s = Some v /\ 50 < v /\
     AQIMapVisualizer.get_aqi_category (Some v) <> Ok "良好 (0-50)" /\
     AQIMapVisualizer.get_aqi_category (Some v) <> Ok "無資料" /\
     AQIMapVisualizer.get_aqi_color (Some v) <> Ok "#00E400") /\
  (AQIMapVisualizer.get_aqi_category (aqi s) = Ok "良好 (0-50)" ->
   ~ In s (identify_high_aqi_stations processed_data default_threshold)) /\
  (aqi s = None ->
   ~ In s (identify_high_aqi_stations processed_data default_threshold)) /\
  (forall v, aqi s = Some v -> 50 < v ->
   In s (identify_high_aqi_stations processed_data default_threshold)).
Proof.
  intros Hin.
  assert (Hhigh : forall v, aqi s = Some v ->
            (is_high default_threshold s = true <-> 50 < v)).
  { intros v Hv. rewrite FilterFacts.is_high_iff. split.
    - intros [v' [Hv' [_ Hlt]]]. rewrite Hv in Hv'. inversion Hv'; subst v'.
      unfold default_threshold in Hlt. rewrite <- Zlt_Qlt in Hlt. exact Hlt.
    - intros Hlt. exists v. split; [ exact Hv |]. split; [ lia |].
      unfold default_threshold. rewrite <- Zlt_Qlt. exact Hlt. }
  split; [| split; [| split ] ].
  - intros Hs. apply high_station_value in Hs. destruct Hs as [_ Hs].
    destruct (aqi s) as [v |] eqn:Ev.
    + exists v. pose proof (proj1 (Hhigh v eq_refl) Hs) as Hv.
      split; [ reflexivity |]. split; [ exact Hv |].
      apply above_fifty_not_good, Hv.
    + unfold is_high in Hs. rewrite Ev in Hs. discriminate Hs.
  - intros Hgood Hs. apply high_station_value in Hs. destruct Hs as [_ Hs].
    destruct (aqi s) as [v |] eqn:Ev.
    + pose proof (proj1 (Hhigh v eq_refl) Hs) as Hv.
      destruct (above_fifty_not_good v Hv) as [Hng _]. exact (Hng Hgood).
    + discriminate Hgood.
  - intros Hnone Hs. apply high_station_value in Hs. destruct Hs as [_ Hs].
    unfold is_high in Hs. rewrite Hnone in Hs. discriminate Hs.
  - intros v Hv Hlt. apply high_station_value. split; [ exact Hin |].
    apply (Hhigh v Hv), Hlt.
Qed.

Lemma high_stations_are_not_good_witness :
  In (processed_with_aqi (Some 75))
     (identify_high_aqi_stations
        (map processed_with_aqi [Some 40; None; Some 75]) default_threshold).
Proof.
  refine (proj2 (proj2 (proj2
            (high_stations_are_not_good
               (map processed_with_aqi [Some 40; None; Some 75])
               (processed_with_aqi (Some 75)) _))) 75 eq_refl _).
  - cbn. tauto.
  - lia.
Defined.

End HighStationBands.

(** ** The export a script picks *)

Module LatestFileFacts.
Import LatestFile.

Lemma ascii_compare_trans (a b c : ascii) (r : comparison) :
  Ascii.compare a b = r -> Ascii.compare b c = r -> Ascii.compare a c = r.
Proof.
  unfold Ascii.compare. intros H1 H2. destruct r.
  - apply N.compare_eq_iff in H1. apply N.compare_eq_iff in H2.
    apply N.compare_eq_iff. congruence.
  - apply N.compare_lt_iff in H1. apply N.compare_lt_iff in H2.
    apply N.compare_lt_iff. eapply N.lt_trans; eassumption.
  - apply N.compare_gt_iff in H1. apply N.compare_gt_iff in H2.
    apply N.compare_gt_iff. eapply N.lt_trans; eassumption.
Qed.

Lemma string_leb_trans (s1 s2 s3 : string) :
  String.leb s1 s2 = true -> String.leb s2 s3 = true ->
  String.leb s1 s3 = true.
Proof.
  unfold String.leb. revert s2 s3.
  induction s1 as [| a s1 IH]; intros [| b s2] [| c s3];
    cbn [String.compare]; try reflexivity; try discriminate.
  destruct (Ascii.compare a b) eqn:Eab, (Ascii.compare b c) eqn:Ebc;
    try discriminate.
  - rewrite (ascii_compare_trans a b c Eq Eab Ebc). apply IH.
  - apply Ascii.compare_eq_iff in Eab. subst b. rewrite Ebc. reflexivity.
  - apply Ascii.compare_eq_iff in Ebc. subst c. rewrite Eab. reflexivity.
  - rewrite (ascii_compare_trans a b c Lt Eab Ebc). reflexivity.
Qed.

Lemma string_leb_refl (s : string) : String.leb s s = true.
Proof. destruct (String.leb_total s s); assumption. Qed.

Lemma insert_sorted_ascending (x : string) (l : list string) :
  StronglySorted (fun a b => String.leb a b = true) l ->
  StronglySorted (fun a b => String.leb a b = true)
                 (insert_sorted String.leb x l).
Proof.
  induction 1 as [| y l Hsorted IH Hall]; cbn [insert_sorted].
  - constructor; constructor.
  - destruct (String.leb x y) eqn:E.
    + constructor; [ constructor; assumption |].
      constructor; [ exact E |].
      eapply Forall_impl; [| exact Hall ]. cbn. intros z Hz.
      eapply string_leb_trans; eassumption.
    + constructor; [ exact IH |].
      eapply Permutation_Forall;
        [ apply Permutation_sym, insert_sorted_perm |].
      constructor; [| exact Hall ].
      destruct (String.leb_total x y) as [H | H]; [ congruence | exact H ].
Qed.

Lemma stable_sort_ascending (l : list string) :
  StronglySorted (fun a b => String.leb a b = true)
                 (stable_sort String.leb l).
Proof.
  induction l as [| x l IH]; cbn [stable_sort]; [ constructor |].
  apply insert_sorted_ascending, IH.
Qed.

Lemma last_in (l : list string) (d : string) : l <> [] -> In (last l d) l.
Proof.
  induction l as [| x l IH]; intros Hne; [ congruence |].
  destruct l as [| y l]; [ left; reflexivity |].
  right. apply IH. discriminate.
Qed.

Lemma last_is_greatest (l : list string) (d : string) :
  StronglySorted (fun a b => String.leb a b = true) l ->
  forall x, In x l -> String.leb x (last l d) = true.
Proof.
  induction 1 as [| y l Hsorted IH Hall]; intros x Hx; [ destruct Hx |].
  destruct l as [| z l].
  - destruct Hx as [Hx | []]. subst x. apply string_leb_refl.
  - change (last (y :: z :: l) d) with (last (z :: l) d).
    destruct Hx as [Hx | Hx].
    + subst x. rewrite Forall_forall in Hall. apply Hall.
      apply last_in. discriminate.
    + apply IH, Hx.
Qed.

Lemma latest_file_spec (prefix : string) (listing : list string) (f : string) :
  latest_file prefix listing = Some f <->
  In f listing /\ is_export prefix f = true /\
  forall g, In g listing -> is_export prefix g = true ->
            String.leb g f = true.
Proof.
  unfold latest_file.
  set (csv_files := filter (is_export prefix) listing).
  assert (Hperm : Permutation (stable_sort String.leb csv_files) csv_files)
    by apply stable_sort_perm.
  assert (Hgreatest : csv_files <> [] ->
            In (last (stable_sort String.leb csv_files) "") csv_files /\
            forall g, In g csv_files ->
              String.leb g (last (stable_sort String.leb csv_files) "") = true).
  { intros Hne. split.
    - eapply Permutation_in; [ exact Hperm |]. apply last_in.
      intros E. rewrite E in Hperm. apply Permutation_nil in Hperm.
      congruence.
    - intros g Hg. apply last_is_greatest; [ apply stable_sort_ascending |].
      eapply Permutation_in; [ apply Permutation_sym, Hperm | exact Hg ]. }
  split.
  - intros H. destruct csv_files as [| c rest] eqn:E; [ discriminate H |].
    destruct (Hgreatest ltac:(discriminate)) as [Hin Hmax].
    assert (Hf : f = last (stable_sort String.leb (c :: rest)) "")
      by (inversion H; reflexivity).
    rewrite <- Hf in Hin, Hmax. rewrite <- E in Hin, Hmax.
    apply filter_In in Hin. destruct Hin as [Hin Hexp].
    split; [ exact Hin |]. split; [ exact Hexp |].
    intros g Hg Hgexp. apply Hmax, filter_In. split; assumption.
  - intros [Hin [Hexp Hmax]].
    assert (Hf : In f csv_files) by (apply filter_In; split; assumption).
    destruct csv_files as [| c rest] eqn:E; [ destruct Hf |].
    destruct (Hgreatest ltac:(discriminate)) as [Hin' Hmax'].
    f_equal. apply String.leb_antisym.
    + rewrite <- E in Hin' |- *. apply filter_In in Hin'.
      destruct Hin' as [Hl He]. apply Hmax; assumption.
    + apply Hmax', Hf.
Qed.

(** The export a script reads is the greatest, in string order, of the
    listed names that carry its prefix and end in [.csv]; the script
    finds none exactly when no listed name is such an export; and the
    choice does not depend on the order in which the directory is
    listed. *)
Theorem latest_file_is_greatest (prefix : string) (listing : list string) :
  (latest_file prefix listing = None <->
   forall g, In g listing -> is_export prefix g = false) /\
  (forall f, latest_file prefix listing = Some f ->
     In f listing /\ String.prefix prefix f = true /\
     endswith f ".csv" = true /\
     forall g, In g listing -> is_export prefix g = true ->
               String.leb g f = true) /\
  (forall listing', Permutation listing listing' ->
     latest_file prefix listing' = latest_file prefix listing).
Proof.
  split; [| split ].
  - unfold latest_file. split.
    + intros H g Hg. destruct (is_export prefix g) eqn:E; [| reflexivity ].
      assert (Hin : In g (filter (is_export prefix) listing))
        by (apply filter_In; split; assumption).
      destruct (filter (is_export prefix) listing); [ destruct Hin | discriminate H ].
    + intros H. rewrite (SummaryFacts.filter_none _ _ H). reflexivity.
  - intros f Hf. apply latest_file_spec in Hf.
    destruct Hf as [Hin [Hexp Hmax]]. unfold is_export in Hexp.
    apply andb_true_iff in Hexp. destruct Hexp as [Hp He].
    repeat split; assumption.
  - intros listing' Hperm.
    destruct (latest_file prefix listing) as [f |] eqn:E.
    + apply latest_file_spec. apply latest_file_spec in E.
      destruct E as [Hin [Hexp Hmax]].
      split; [ eapply Permutation_in; eassumption |].
      split; [ exact Hexp |].
      intros g Hg. apply Hmax. eapply Permutation_in;
        [ apply Permutation_sym, Hperm | exact Hg ].
    + destruct (latest_file prefix listing') as [f' |] eqn:E';
        [| reflexivity ].
      apply latest_file_spec in E'. destruct E' as [Hin [Hexp _]].
      assert (Hin0 : In f' (filter (is_export prefix) listing)).
      { apply filter_In. split; [| exact Hexp ].
        eapply Permutation_in; [ apply Permutation_sym, Hperm | exact Hin ]. }
      unfold latest_file in E.
      destruct (filter (is_export prefix) listing);
        [ destruct Hin0 | discriminate E ].
Qed.

End LatestFileFacts.

(** ** The markers of the map *)

Module MarkerFacts.
Import DataFrame AQIMapVisualizer MapMarkers Spec.

Lemma scan_cell_value (table : dict string) (fallback : string) (v : Z)
    (ranges : dict (Z * Z)) :
  scan_cell ranges table fallback (Val v) = scan ranges table fallback v.
Proof.
  induction ranges as [| [category rng] rest IH]; [ reflexivity |].
  cbn [scan_cell scan cell_in_range]. rewrite IH. reflexivity.
Qed.

Lemma scan_cell_nan (table : dict string) (fallback : string)
    (ranges : dict (Z * Z)) :
  scan_cell ranges table fallback NaN = Ok fallback.
Proof.
  induction ranges as [| [category rng] rest IH]; [ reflexivity |].
  cbn [scan_cell cell_in_range]. exact IH.
Qed.

(** On the map a station with an AQI value gets the colour and the
    label the classifier gives that value.  A station whose AQI cell is
    empty gets the grey colour and the label of a value out of range,
    not the label of missing data, because an empty cell is [NaN] and
    not [None]; the summary counts the same station under 'missing'. *)
Theorem marker_of_station (station : row) :
  (forall v, aqi station = Val v ->
     marker_color station = get_aqi_color (Some v) /\
     marker_category station = get_aqi_category (Some v)) /\
  (aqi station = NaN ->
     marker_color station = Ok "#808080" /\
     marker_category station = Ok "超出範圍" /\
     marker_category station <> get_aqi_category None /\
     buckets_of station = ["missing"]).
Proof.
  unfold marker_color, marker_category. split.
  - intros v Hv. rewrite Hv, !scan_cell_value. split; reflexivity.
  - intros Hnan. rewrite Hnan, !scan_cell_nan.
    split; [ reflexivity |]. split; [ reflexivity |].
    split; [ discriminate |].
    unfold buckets_of, aqi_isna, aqi_between. rewrite Hnan. reflexivity.
Qed.

(** The counter and the markers agree on the bands: a reading is
    counted under a band exactly when its marker carries that band's
    label. *)
Theorem band_count_matches_marker (station : row) (k : string) :
  In k band_keys ->
  (counted_in k station = true
   <-> marker_category station = dict_getitem aqi_labels k).
Proof.
  intros Hk. unfold counted_in, buckets_of, marker_category.
  unfold aqi_isna, aqi_between, isna.
  destruct (aqi station) as [| v].
  - rewrite scan_cell_nan. cbn in Hk.
    repeat match goal with
      | H : _ \/ _ |- _ => destruct H
      | H : False |- _ => destruct H
      end; subst k; cbn; split; discriminate.
  - rewrite scan_cell_value. cbn [aqi_ranges filter map fst snd scan].
    unfold in_range. cbn [fst snd] in *. cbn in Hk.
    repeat match goal with
      | H : _ \/ _ |- _ => destruct H
      | H : False |- _ => destruct H
      end; subst k;
      repeat match goal with
        | |- context [?a <=? ?b] => destruct (Z.leb_spec a b); try lia
        end; cbn; split; intros Hx; try discriminate Hx; reflexivity.
Qed.

Lemma band_count_matches_marker_witness :
  counted_in "moderate" (reading (Val 75)) = true
  <-> marker_category (reading (Val 75)) = dict_getitem aqi_labels "moderate".
Proof.
  apply (band_count_matches_marker (reading (Val 75)) "moderate").
  cbn. tauto.
Defined.

End MarkerFacts.
